(** * simpletree: a gitignore-aware directory tree printer

    Shallow embedding of [simpletree.py] and the properties of its
    pattern filter ([GitignoreParser]) and of its recursive renderer
    ([tree]).

    Conventions of the model.
    - A Python [str] is a [string]; a character is one byte of its UTF-8
      encoding.  Byte-wise lexicographic order agrees with code-point
      order, so comparisons are as in Python; case folding and
      white-space classification are those of the ASCII range.
    - The platform is POSIX: the separator is [/] and [os.path.normcase]
      is the identity.
    - The file system is a finite tree of nodes (symbolic links are not
      modelled); a directory records the order in which the operating
      system enumerates it.
    - The root path comes from the command line and may fail to be
      examined ([examined]); the entries of a directory that could be
      listed can be examined, and the text of a file that can be opened
      can be decoded.
    - The tree is shallower than the recursion limit of the
      interpreter. *)

From Stdlib Require Import Bool Arith List Lia.
From Stdlib Require Import Strings.Ascii Strings.String.
From Stdlib Require Import Sorting.Sorted Sorting.Permutation.
Import ListNotations.

Local Open Scope list_scope.
Local Open Scope bool_scope.
Local Open Scope string_scope.

(* ================================================================= *)
(** ** Python string methods *)

Module Py.

Definition is_empty (s : string) : bool :=
  match s with EmptyString => true | String _ _ => false end.

(** [str.isspace] on the ASCII range: TAB..CR, FS..US and the blank. *)
Definition is_space (c : ascii) : bool :=
  let n := nat_of_ascii c in
  (Nat.leb 9 n && Nat.leb n 13) || (Nat.leb 28 n && Nat.leb n 32).

Definition is_char (d c : ascii) : bool := Ascii.eqb c d.

Fixpoint lstrip_by (p : ascii -> bool) (s : string) : string :=
  match s with
  | EmptyString => EmptyString
  | String c r => if p c then lstrip_by p r else s
  end.

Fixpoint rstrip_by (p : ascii -> bool) (s : string) : string :=
  match s with
  | EmptyString => EmptyString
  | String c r =>
      let r' := rstrip_by p r in
      if is_empty r' && p c then EmptyString else String c r'
  end.

Definition strip_by (p : ascii -> bool) (s : string) : string :=
  rstrip_by p (lstrip_by p s).

(** [s.strip()] *)
Definition strip (s : string) : string := strip_by is_space s.

(** [s.strip(c)] and [s.rstrip(c)] for a one-character argument *)
Definition strip_char (c : ascii) (s : string) : string := strip_by (is_char c) s.
Definition rstrip_char (c : ascii) (s : string) : string := rstrip_by (is_char c) s.

(** [s.startswith(p)] *)
Definition startswith (p s : string) : bool := String.prefix p s.

(** [s.endswith(p)] *)
Fixpoint endswith (p s : string) : bool :=
  String.eqb s p ||
  match s with
  | EmptyString => false
  | String _ r => endswith p r
  end.

(** [p in s] *)
Fixpoint contains (p s : string) : bool :=
  String.prefix p s ||
  match s with
  | EmptyString => false
  | String _ r => contains p r
  end.

(** [s.split(sep)] for a non-empty [sep]: the pieces between the
    successive non-overlapping occurrences of [sep], scanning from the
    left.  [skip] counts the characters of an occurrence still to be
    passed over; [cur] is the piece being read. *)
Fixpoint split_go (sep s : string) (skip : nat) (cur : string) : list string :=
  match s with
  | EmptyString => [cur]
  | String c r =>
      match skip with
      | S k => split_go sep r k cur
      | O =>
          if String.prefix sep s
          then cur :: split_go sep r (String.length sep - 1) EmptyString
          else split_go sep r 0 (cur ++ String c EmptyString)
      end
  end.

Definition split (sep s : string) : list string := split_go sep s 0 EmptyString.

(** [sep.join(l)] *)
Definition join (sep : string) (l : list string) : string := String.concat sep l.

(** [s * n] *)
Fixpoint repeat_str (s : string) (n : nat) : string :=
  match n with
  | O => EmptyString
  | S k => s ++ repeat_str s k
  end.

Definition lower_char (c : ascii) : ascii :=
  let n := nat_of_ascii c in
  if Nat.leb 65 n && Nat.leb n 90 then ascii_of_nat (n + 32) else c.

(** [s.lower()] *)
Fixpoint lower (s : string) : string :=
  match s with
  | EmptyString => EmptyString
  | String c r => String (lower_char c) (lower r)
  end.

(** [any(l)] on the truth values of the elements *)
Definition any (l : list bool) : bool := existsb (fun b => b) l.

(** Stable sort by key, as [sorted(l, key=...)]: Python's sort is stable,
    and the stable arrangement of a list is unique, so insertion from
    the right computes it. *)
Section Sorted.
Context {A K : Type} (le : K -> K -> bool) (key : A -> K).

Fixpoint insert (x : A) (l : list A) : list A :=
  match l with
  | [] => [x]
  | y :: l' => if le (key x) (key y) then x :: l else y :: insert x l'
  end.

Fixpoint sorted (l : list A) : list A :=
  match l with
  | [] => []
  | x :: l' => insert x (sorted l')
  end.
End Sorted.

(** [enumerate(l)] *)
Fixpoint enumerate_from {A : Type} (i : nat) (l : list A) : list (nat * A) :=
  match l with
  | [] => []
  | x :: l' => (i, x) :: enumerate_from (S i) l'
  end.

Definition enumerate {A : Type} (l : list A) : list (nat * A) := enumerate_from 0 l.

End Py.

(* ================================================================= *)
(** ** The standard library's [fnmatch] *)

Module fnmatch.

(** What [fnmatch.translate] compiles a pattern to, one item per regular
    expression atom: [*], [?], a character set (negated or not, as a list
    of inclusive ranges) or a literal character. *)
Inductive atom : Type :=
| Star
| AnyChar
| CharSet (negated : bool) (ranges : list (ascii * ascii))
| Lit (c : ascii).

(** The position of the bracket that closes a set, counted from the
    character after the opening one: a leading [!] and a [\]] that
    follows it directly do not close. *)
Fixpoint find_close (s : string) (n : nat) : option nat :=
  match s with
  | EmptyString => None
  | String c r => if Ascii.eqb c "]" then Some n else find_close r (S n)
  end.

Definition bracket_close (s : string) : option nat :=
  let '(s1, n1) :=
    match s with
    | String c r => if Ascii.eqb c "!" then (r, 1) else (s, 0)
    | EmptyString => (s, 0)
    end in
  let '(s2, n2) :=
    match s1 with
    | String c r => if Ascii.eqb c "]" then (r, S n1) else (s1, n1)
    | EmptyString => (s1, n1)
    end in
  find_close s2 n2.

(** The members of a set: [a-b] is a range unless the hyphen is the first
    or the last character; everything else stands for itself. *)
Fixpoint set_ranges (s : string) (skip : nat) : list (ascii * ascii) :=
  match s with
  | EmptyString => []
  | String c r =>
      match skip with
      | S k => set_ranges r k
      | O =>
          match r with
          | String d (String e _) =>
              if Ascii.eqb d "-" then (c, e) :: set_ranges r 2
              else (c, c) :: set_ranges r 0
          | _ => (c, c) :: set_ranges r 0
          end
      end
  end.

Definition char_set (stuff : string) : atom :=
  match stuff with
  | String c r =>
      if Ascii.eqb c "!" then CharSet true (set_ranges r 0)
      else CharSet false (set_ranges stuff 0)
  | EmptyString => CharSet false []
  end.

(** [translate]: consecutive stars are compressed into one; an opening
    bracket that is never closed is a literal. *)
Fixpoint translate_go (pat : string) (skip : nat) (after_star : bool) : list atom :=
  match pat with
  | EmptyString => []
  | String c r =>
      match skip with
      | S k => translate_go r k after_star
      | O =>
          if Ascii.eqb c "*" then
            if after_star then translate_go r 0 true
            else Star :: translate_go r 0 true
          else if Ascii.eqb c "?" then AnyChar :: translate_go r 0 false
          else if Ascii.eqb c "[" then
            match bracket_close r with
            | None => Lit c :: translate_go r 0 false
            | Some j => char_set (String.substring 0 j r) :: translate_go r (S j) false
            end
          else Lit c :: translate_go r 0 false
      end
  end.

Definition translate (pat : string) : list atom := translate_go pat 0 false.

Definition in_range (c : ascii) (r : ascii * ascii) : bool :=
  Nat.leb (nat_of_ascii (fst r)) (nat_of_ascii c) && Nat.leb (nat_of_ascii c) (nat_of_ascii (snd r)).

Definition in_set (negated : bool) (ranges : list (ascii * ascii)) (c : ascii) : bool :=
  xorb negated (existsb (in_range c) ranges).

(** Whole-string match of the compiled pattern; every atom but the star
    consumes exactly one character, any character included. *)
Fixpoint matches (p : list atom) (s : string) {struct p} : bool :=
  match p with
  | [] => Py.is_empty s
  | Star :: p' =>
      (fix star (s : string) : bool :=
         matches p' s ||
         match s with
         | EmptyString => false
         | String _ r => star r
         end) s
  | AnyChar :: p' =>
      match s with
      | EmptyString => false
      | String _ r => matches p' r
      end
  | CharSet negated ranges :: p' =>
      match s with
      | EmptyString => false
      | String c r => in_set negated ranges c && matches p' r
      end
  | Lit d :: p' =>
      match s with
      | EmptyString => false
      | String c r => Ascii.eqb c d && matches p' r
      end
  end.

(** [fnmatch.fnmatch(name, pat)] *)
Definition fnmatch (name pat : string) : bool := matches (translate pat) name.

End fnmatch.

(* ================================================================= *)
(** ** The standard library's [os.path] (POSIX flavour) *)

Module os_path.

(** [os.path.normpath] *)
Definition normpath (path : string) : string :=
  if Py.is_empty path then "." else
  let initial_slashes : nat :=
    if Py.startswith "/" path then
      if Py.startswith "//" path && negb (Py.startswith "///" path) then 2 else 1
    else 0 in
  let comps := Py.split "/" path in
  let new_comps :=
    fold_left
      (fun (new_comps : list string) (comp : string) =>
         if String.eqb comp "" || String.eqb comp "." then new_comps
         else if negb (String.eqb comp "..")
                 || (Nat.eqb initial_slashes 0 && Nat.eqb (List.length new_comps) 0)
                 || (negb (Nat.eqb (List.length new_comps) 0)
                     && String.eqb (last new_comps "") "..")
              then (new_comps ++ [comp])%list
              else removelast new_comps)
      comps [] in
  let path := Py.join "/" new_comps in
  let path := Py.repeat_str "/" initial_slashes ++ path in
  if Py.is_empty path then "." else path.

(** [os.path.basename]: what follows the last separator *)
Fixpoint basename (p : string) : string :=
  match p with
  | EmptyString => EmptyString
  | String c r =>
      if Py.contains "/" r then basename r
      else if Ascii.eqb c "/" then r
      else p
  end.

End os_path.

(* ================================================================= *)
(** ** [pathlib.Path] *)

Module pathlib.

(** A pure POSIX path: its root ([""], ["/"] or ["//"]) and its
    components, none of which is empty or a single dot. *)
Record Path : Type := mkPath { root : string; parts : list string }.

(** [Path(s)] *)
Definition of_str (s : string) : Path :=
  let root :=
    if Py.startswith "/" s then
      if Py.startswith "//" s && negb (Py.startswith "///" s) then "//" else "/"
    else "" in
  mkPath root
    (filter (fun x => negb (String.eqb x "") && negb (String.eqb x "."))
            (Py.split "/" s)).

(** [str(p)] *)
Definition str (p : Path) : string :=
  let s := root p ++ Py.join "/" (parts p) in
  if Py.is_empty s then "." else s.

(** [p.name] *)
Definition name (p : Path) : string := last (parts p) "".

(** [p.parent] *)
Definition parent (p : Path) : Path := mkPath (root p) (removelast (parts p)).

(** [p / n] for a directory entry [n], as [iterdir] builds its results *)
Definition child (p : Path) (n : string) : Path := mkPath (root p) (parts p ++ [n])%list.

(** A path object defines neither [__bool__] nor [__len__]: it is true. *)
Definition truth (p : Path) : bool := true.

End pathlib.

(* ================================================================= *)
(** ** The file system, exceptions and output *)

(** What a path denotes: nothing, a regular file (whose text can be read
    or not) or a directory.  A directory lists its entries in the order
    [iterdir] yields them; [readable = false] makes [iterdir] raise
    [PermissionError], while entries are still found by name. *)
#[warnings="-register-all"]
Inductive node : Type :=
| Absent
| File (content : option string)
| Dir (readable : bool) (entries : list (string * node)).

Inductive exn : Type :=
| PermissionError
| IsADirectoryError
| FileNotFoundError
| OSError.

Inductive outcome (A : Type) : Type :=
| Done (a : A)
| Raised (e : exn).

Arguments Done {A} a.
Arguments Raised {A} e.


(** One call of [print]: the text of the line, labelled with the path
    whose entry it is and the level of the call that printed it (the
    labels are not part of the output). *)
Record printed : Type := mkPrinted { at_path : string; depth : nat; text : string }.

(** A computation that prints lines and then returns or raises. *)
Definition io (A : Type) : Type := (list printed * outcome A)%type.

Definition ret {A : Type} (a : A) : io A := ([], Done a).

Definition bind {A B : Type} (m : io A) (k : A -> io B) : io B :=
  match m with
  | (out, Done a) => let '(out', r) := k a in ((out ++ out')%list, r)
  | (out, Raised e) => (out, Raised e)
  end.

Definition print (p : string) (level : nat) (s : string) : io unit :=
  ([mkPrinted p level s], Done tt).

Definition lift {A : Type} (r : outcome A) : io A := ([], r).

Notation "x <- m ;; k" := (bind m (fun x => k))
  (at level 61, m at next level, right associativity).
Notation "m ;;; k" := (bind m (fun _ => k))
  (at level 61, right associativity).

(** [for x in l: body(x)] *)
Fixpoint for_each {A : Type} (l : list A) (body : A -> io unit) : io unit :=
  match l with
  | [] => ret tt
  | x :: l' => body x ;;; for_each l' body
  end.

(** The lines written to standard output. *)
Definition stdout {A : Type} (m : io A) : list string := map text (fst m).

Module fs.

(** [p.is_dir()] and [os.path.exists(p)] on a path that could be
    examined. *)
Definition is_dir (n : node) : bool :=
  match n with Dir _ _ => true | _ => false end.

Definition exists_ (n : node) : bool :=
  match n with Absent => false | _ => true end.


(** What the name [x] denotes inside [n]. *)
Fixpoint find (x : string) (entries : list (string * node)) : node :=
  match entries with
  | [] => Absent
  | (y, m) :: rest => if String.eqb x y then m else find x rest
  end.

Definition lookup (n : node) (x : string) : node :=
  match n with
  | Dir _ entries => find x entries
  | _ => Absent
  end.

(** [open(p, 'r')] followed by reading the text (which decodes) *)
Definition open_read (n : node) : outcome string :=
  match n with
  | File (Some text) => Done text
  | File None => Raised PermissionError
  | Dir _ _ => Raised IsADirectoryError
  | Absent => Raised FileNotFoundError
  end.

(** [list(p.iterdir())] *)
Definition iterdir (n : node) : outcome (list (string * node)) :=
  match n with
  | Dir true entries => Done entries
  | Dir false _ => Raised PermissionError
  | File _ => Raised IsADirectoryError
  | Absent => Raised FileNotFoundError
  end.

(** Iterating over a text file: the lines, each with its terminator;
    [\r\n] and [\r] are read as [\n]. *)
Fixpoint lines_go (s : string) (cur : string) : list string :=
  match s with
  | EmptyString => if Py.is_empty cur then [] else [cur]
  | String c r =>
      if Ascii.eqb c "010" then (cur ++ String "010" "") :: lines_go r ""
      else if Ascii.eqb c "013" then
        match r with
        | String d r' =>
            if Ascii.eqb d "010" then (cur ++ String "010" "") :: lines_go r' ""
            else (cur ++ String "010" "") :: lines_go r ""
        | EmptyString => [cur ++ String "010" ""]
        end
      else lines_go r (cur ++ String c "")
  end.

Definition lines (s : string) : list string := lines_go s "".

End fs.

(* ================================================================= *)
(** ** [class GitignoreParser] *)

Record GitignoreParser : Type := mkParser {
  patterns : list string;
  default_patterns : list string
}.

(** [__init__] *)
Definition GitignoreParser_init : GitignoreParser :=
  mkParser []
    [ "node_modules"; "dist"; "__pycache__"; "*.pyc"; ".git"; ".DS_Store";
      "build"; ".env"; "venv"; ".venv" ].

(** The body of the loop over the lines of the file. *)
Definition load_line (self : GitignoreParser) (line : string) : GitignoreParser :=
  let line := Py.strip line in
  if negb (Py.is_empty line) && negb (Py.startswith "#" line) then
    let line := Py.strip_char "/" line in
    mkParser (patterns self ++ [line])%list (default_patterns self)
  else self.

(** [load_gitignore(self, directory)]; [dir] is what [directory] denotes,
    so that [os.path.join(directory, '.gitignore')] denotes its entry of
    that name. *)
Definition load_gitignore (self : GitignoreParser) (dir : node) (directory : string)
  : outcome GitignoreParser :=
  let gitignore := fs.lookup dir ".gitignore" in
  let self := mkParser (default_patterns self) (default_patterns self) in
  if fs.exists_ gitignore then
    match fs.open_read gitignore with
    | Done f => Done (fold_left load_line (fs.lines f) self)
    | Raised e => Raised e
    end
  else Done self.

(** The wildcard-directory rule at the end of the loop body. *)
Definition double_star (path pattern : string) : bool :=
  if Py.contains "**" pattern then
    match Py.split "**" pattern with
    | [part0; part1] => Py.startswith part0 path && Py.endswith part1 path
    | _ => false
    end
  else false.

(** The loop over the patterns, on the normalized path and its name. *)
Fixpoint should_ignore_loop (pats : list string) (path name : string) (is_dir : bool) : bool :=
  match pats with
  | [] => false
  | pattern :: rest =>
      if Py.endswith "/" pattern && negb is_dir then
        should_ignore_loop rest path name is_dir
      else
        let pattern := Py.rstrip_char "/" pattern in
        if fnmatch.fnmatch path pattern || fnmatch.fnmatch name pattern then true
        else if double_star path pattern then true
        else should_ignore_loop rest path name is_dir
  end.

(** [should_ignore(self, path, is_dir)] *)
Definition should_ignore (self : GitignoreParser) (path : string) (is_dir : bool) : bool :=
  let path := os_path.normpath path in
  let name := os_path.basename path in
  should_ignore_loop (patterns self) path name is_dir.

(* ================================================================= *)
(** ** [tree] *)

(** The key of the sort: [(not x.is_dir(), x.name.lower())], and the
    order of Python tuples on such keys. *)
Definition sort_key (is_dir : bool) (name : string) : bool * string :=
  (negb is_dir, Py.lower name).

Definition key_le (k1 k2 : bool * string) : bool :=
  match fst k1, fst k2 with
  | false, true => true
  | true, false => false
  | _, _ => String.leb (snd k1) (snd k2)
  end.

Definition end_connector : string := "└── ".
Definition mid_connector : string := "├── ".
Definition blank_indent : string := "    ".
Definition bar_indent : string := "│   ".

(** An entry of the directory being listed: its path, what it denotes
    and the rendering of its subtree, still waiting for the arguments
    of the recursive call. *)
Definition item : Type :=
  (pathlib.Path * node * (string -> nat -> string -> GitignoreParser -> io unit))%type.

Definition item_path (x : item) : pathlib.Path := fst (fst x).
Definition item_node (x : item) : node := snd (fst x).
Definition item_tree (x : item) := snd x.

Definition item_key (x : item) : bool * string :=
  sort_key (fs.is_dir (item_node x)) (pathlib.name (item_path x)).

(** [tree(directory, level, prefix, gitignore_parser)], where [n] is what
    [directory] denotes and [siblings] is the listing of the directory
    that [Path(directory).parent] denotes: below the root this is the
    directory the caller has just listed (lemma [parent_of_listed_entry]);
    on level 0 it is not looked at. *)
Fixpoint tree (n : node) (siblings : list (string * node))
  (directory : string) (level : nat) (prefix : string)
  (gitignore_parser : GitignoreParser) {struct n} : io unit :=
  let path := pathlib.of_str directory in
  gitignore_parser <-
    (if Nat.eqb level 0
     then lift (load_gitignore GitignoreParser_init n directory)
     else ret gitignore_parser) ;;
  if should_ignore gitignore_parser (pathlib.str path) (fs.is_dir n) then ret tt
  else
    (if Nat.eqb level 0 then print (pathlib.str path) level (pathlib.name path)
     else
       let is_last :=
         negb (Py.any (map (fun e => pathlib.truth (pathlib.child (pathlib.parent path) (fst e)))
                           siblings)) in
       print (pathlib.str path) level
             (prefix ++ (if is_last then end_connector else mid_connector)
                     ++ pathlib.name path)) ;;;
    match n with
    | Dir readable entries =>
        match fs.iterdir n with
        | Raised PermissionError => ret tt
        | Raised e => lift (Raised e)
        | Done _ =>
            let listing : list item :=
              map (fun e => (pathlib.child path (fst e), snd e, tree (snd e) entries))
                  entries in
            let contents := Py.sorted key_le item_key listing in
            let contents :=
              filter (fun x => negb (should_ignore gitignore_parser
                                       (pathlib.str (item_path x))
                                       (fs.is_dir (item_node x))))
                     contents in
            for_each (Py.enumerate contents)
              (fun '(i, x) =>
                 let new_prefix :=
                   if Nat.eqb level 0 then blank_indent
                   else
                     let is_last_item := Nat.eqb i (List.length contents - 1) in
                     prefix ++ (if is_last_item then blank_indent else bar_indent) in
                 item_tree x (pathlib.str (item_path x)) (level + 1) new_prefix
                           gitignore_parser)
        end
    | _ => ret tt
    end.



(* ================================================================= *)
(** ** Notions used to state the properties *)

(** The name of a directory entry: not empty, not a single dot, and
    without separator. *)
Definition valid_name (x : string) : bool :=
  negb (String.eqb x "") && negb (String.eqb x ".") && negb (Py.contains "/" x).

(** Every entry below [n] has such a name. *)
Fixpoint wf (n : node) : bool :=
  match n with
  | Dir _ entries => forallb (fun e => valid_name (fst e) && wf (snd e)) entries
  | _ => true
  end.

(** The patterns a [.gitignore] contributes, in the words of the
    specification: of the lines (trimmed of surrounding white space),
    those that are not blank and do not begin with [#], with leading and
    trailing [/] stripped, in file order. *)
Definition gitignore_patterns_spec (lines : list string) : list string :=
  map (Py.strip_char "/")
      (filter (fun l => negb (Py.is_empty l) && negb (Py.startswith "#" l))
              (map Py.strip lines)).

(** Splitting around the first occurrence only, as the specification
    words the wildcard-directory rule ([s.split(sep, 1)]). *)
Fixpoint split_first_go (sep s cur : string) : list string :=
  match s with
  | EmptyString => [cur]
  | String c r =>
      if String.prefix sep s
      then [cur; String.substring (String.length sep) (String.length s) s]
      else split_first_go sep r (cur ++ String c EmptyString)
  end.

Definition split_first (sep s : string) : list string := split_first_go sep s "".

(** [kept g root top n p]: in the walk that starts at the node [root]
    with path [top], the entry [n] with path [p] is reached through
    directories that could be listed and none of which, [n] included, the filter [g]
    ignores. *)
Inductive kept (g : GitignoreParser) (root : node) (top : pathlib.Path)
  : node -> pathlib.Path -> Prop :=
| kept_root :
    should_ignore g (pathlib.str top) (fs.is_dir root) = false ->
    kept g root top root top
| kept_child entries p x m :
    kept g root top (Dir true entries) p ->
    In (x, m) entries ->
    should_ignore g (pathlib.str (pathlib.child p x)) (fs.is_dir m) = false ->
    kept g root top m (pathlib.child p x).

(** The surviving children of a listed directory, in the order of the
    loop: sorted by key, then filtered. *)
Definition entry_key (e : string * node) : bool * string :=
  sort_key (fs.is_dir (snd e)) (fst e).

Definition surviving (g : GitignoreParser) (p : pathlib.Path)
  (entries : list (string * node)) : list (string * node) :=
  filter (fun e => negb (should_ignore g (pathlib.str (pathlib.child p (fst e)))
                                       (fs.is_dir (snd e))))
         (Py.sorted key_le entry_key entries).

(** ** The parts of a call of [tree] *)

(** The parser a call works with. *)
Definition parser_of (n : node) (directory : string) (level : nat)
  (gitignore_parser : GitignoreParser) : outcome GitignoreParser :=
  if Nat.eqb level 0 then load_gitignore GitignoreParser_init n directory
  else Done gitignore_parser.

(** The line a call prints for its own entry. *)
Definition own_line (siblings : list (string * node)) (directory : string)
  (level : nat) (prefix : string) : printed :=
  let path := pathlib.of_str directory in
  mkPrinted (pathlib.str path) level
    (if Nat.eqb level 0 then pathlib.name path
     else prefix ++ (match siblings with [] => end_connector | _ :: _ => mid_connector end)
                 ++ pathlib.name path).

(** The prefix handed to the entry of index [i] among [len]. *)
Definition new_prefix (level : nat) (prefix : string) (i len : nat) : string :=
  if Nat.eqb level 0 then blank_indent
  else prefix ++ (if Nat.eqb i (len - 1) then blank_indent else bar_indent).

(** The loop over the surviving entries of a listed directory. *)
Definition children_loop (g : GitignoreParser) (path : pathlib.Path)
  (entries : list (string * node)) (level : nat) (prefix : string) : io unit :=
  let contents := surviving g path entries in
  for_each (Py.enumerate contents)
    (fun ie =>
       tree (snd (snd ie)) entries
            (pathlib.str (pathlib.child path (fst (snd ie)))) (level + 1)
            (new_prefix level prefix (fst ie) (List.length contents)) g).


(** The lines of the entries of a listed directory, in the order of the
    loop. *)
Definition children_lines (g : GitignoreParser) (path : pathlib.Path)
  (entries : list (string * node)) (level : nat) (prefix : string) : list printed :=
  flat_map
    (fun ie =>
       fst (tree (snd (snd ie)) entries
                 (pathlib.str (pathlib.child path (fst (snd ie)))) (level + 1)
                 (new_prefix level prefix (fst ie)
                             (List.length (surviving g path entries))) g))
    (Py.enumerate (surviving g path entries)).


(** The line of a surviving entry. *)
Definition child_line (path : pathlib.Path) (level : nat) (prefix : string)
  (len : nat) (ie : nat * (string * node)) : printed :=
  mkPrinted (pathlib.str (pathlib.child path (fst (snd ie)))) (level + 1)
            (new_prefix level prefix (fst ie) len ++ mid_connector ++ fst (snd ie)).


(** Patterns that are decided by the base name: no separator, no [**],
    and, but for a leading star, no character that [fnmatch] reads as
    other than itself. *)
Definition special (c : ascii) : bool :=
  Ascii.eqb c "*" || Ascii.eqb c "?" || Ascii.eqb c "[".

Fixpoint plain (s : string) : bool :=
  match s with
  | EmptyString => true
  | String c r => negb (special c) && plain r
  end.

Definition name_pattern (pat : string) : bool :=
  negb (Py.contains "/" pat) && negb (Py.contains "**" pat) &&
  match pat with
  | String c rest => if Ascii.eqb c "*" then plain rest else plain pat
  | EmptyString => true
  end.

(** The order of the sort, on entries with a key. *)
Definition le_by_key {A : Type} (key : A -> bool * string) (a b : A) : Prop :=
  key_le (key a) (key b) = true.

(** ** Induction over the file system *)

Section NodeInduction.
Variable P : node -> Prop.
Hypothesis P_absent : P Absent.
Hypothesis P_file : forall content, P (File content).
Hypothesis P_dir : forall readable entries,
  Forall (fun e => P (snd e)) entries -> P (Dir readable entries).

Fixpoint node_induction (n : node) : P n :=
  match n with
  | Absent => P_absent
  | File content => P_file content
  | Dir readable entries =>
      P_dir readable entries
        ((fix all (l : list (string * node)) : Forall (fun e => P (snd e)) l :=
            match l with
            | [] => Forall_nil _
            | e :: l' => Forall_cons e (node_induction (snd e)) (all l')
            end) entries)
  end.
End NodeInduction.

(** The test the default patterns amount to, on a base name: one of the
    nine names, or a name that ends with [.pyc] (in the order of the
    list). *)
Definition default_name_test (name : string) : bool :=
  String.eqb name "node_modules" || String.eqb name "dist"
  || String.eqb name "__pycache__" || Py.endswith ".pyc" name
  || String.eqb name ".git" || String.eqb name ".DS_Store"
  || String.eqb name "build" || String.eqb name ".env"
  || String.eqb name "venv" || String.eqb name ".venv".

(** One step of indentation: four blanks, or a bar and three blanks. *)
Definition indent_unit (u : string) : Prop := u = blank_indent \/ u = bar_indent.

(** The prefix a call builds on: none on level 0, where the prefix
    passed in is not used. *)
Definition base_prefix (level : nat) (prefix : string) : string :=
  if Nat.eqb level 0 then "" else prefix.

(** Levels that never go up by more than one from a line to the next,
    starting after a line of level [prev]. *)
Fixpoint steps_by_one (prev : nat) (levels : list nat) : Prop :=
  match levels with
  | [] => True
  | d :: rest => d <= S prev /\ steps_by_one d rest
  end.

(** Two file systems with the same names and kinds everywhere, and the
    same directories unlistable; the texts of the files may differ. *)
#[warnings="-register-all"]
Inductive same_shape : node -> node -> Prop :=
| shape_absent : same_shape Absent Absent
| shape_file content content' : same_shape (File content) (File content')
| shape_dir readable entries entries' :
    Forall2 (fun e e' => fst e = fst e' /\ same_shape (snd e) (snd e')) entries entries' ->
    same_shape (Dir readable entries) (Dir readable entries').


(* ================================================================= *)
(** * Properties *)

(** ** Loading the patterns *)

Lemma load_line_patterns self line :
  load_line self line =
  mkParser (patterns self ++ gitignore_patterns_spec [line])%list (default_patterns self).
Proof.
  unfold load_line, gitignore_patterns_spec; simpl.
  destruct (negb (Py.is_empty (Py.strip line)) && negb (Py.startswith "#" (Py.strip line))).
  - reflexivity.
  - simpl. rewrite app_nil_r. now destruct self.
Qed.

Lemma gitignore_patterns_spec_cons line lines :
  gitignore_patterns_spec (line :: lines) =
  (gitignore_patterns_spec [line] ++ gitignore_patterns_spec lines)%list.
Proof.
  unfold gitignore_patterns_spec; simpl.
  destruct (negb (Py.is_empty (Py.strip line)) && negb (Py.startswith "#" (Py.strip line)));
    reflexivity.
Qed.

Lemma load_loop_patterns lines : forall self,
  fold_left load_line lines self =
  mkParser (patterns self ++ gitignore_patterns_spec lines)%list (default_patterns self).
Proof.
  induction lines as [|line lines IH]; intros self.
  - simpl. rewrite app_nil_r. now destruct self.
  - simpl fold_left. rewrite IH, load_line_patterns. simpl.
    rewrite (gitignore_patterns_spec_cons line lines), app_assoc. reflexivity.
Qed.

(** What [load_gitignore] leaves in the parser, by the state of the
    [.gitignore] entry. *)
Lemma load_gitignore_cases self dir directory :
  load_gitignore self dir directory =
  match fs.lookup dir ".gitignore" with
  | Absent => Done (mkParser (default_patterns self) (default_patterns self))
  | File (Some f) =>
      Done (mkParser (default_patterns self ++ gitignore_patterns_spec (fs.lines f))%list
                     (default_patterns self))
  | File None => Raised PermissionError
  | Dir _ _ => Raised IsADirectoryError
  end.
Proof.
  unfold load_gitignore.
  destruct (fs.lookup dir ".gitignore") as [|[f|]|r es]; simpl; try reflexivity.
  now rewrite load_loop_patterns.
Qed.

Lemma load_gitignore_patterns self dir directory g :
  load_gitignore self dir directory = Done g ->
  exists extra, patterns g = (default_patterns self ++ extra)%list.
Proof.
  rewrite load_gitignore_cases.
  destruct (fs.lookup dir ".gitignore") as [|[f|]|r es]; intros H; inversion H; subst; simpl.
  - exists []. now rewrite app_nil_r.
  - eexists; reflexivity.
Qed.


(** C3, as stated, fails: a [.gitignore] that exists but cannot be opened
    makes [load_gitignore] raise instead of leaving the defaults alone. *)
Lemma C3_unopenable_gitignore_raises :
  let dir := Dir true [(".gitignore", File None)] in
  fs.open_read (fs.lookup dir ".gitignore") = Raised PermissionError /\
  load_gitignore GitignoreParser_init dir "proj" = Raised PermissionError /\
  load_gitignore GitignoreParser_init dir "proj"
    <> Done (mkParser (default_patterns GitignoreParser_init)
                      (default_patterns GitignoreParser_init)).
Proof.
  repeat split; try reflexivity. discriminate.
Qed.

(** C3 (amended): after [load_gitignore] the pattern sequence is the ten
    default patterns in their fixed order, followed by the patterns of
    the [.gitignore] of the root directory as the specification words
    them (lines trimmed of white space, blank and [#] lines dropped,
    leading and trailing [/] stripped, in file order); when there is no
    [.gitignore] the sequence is the defaults alone and nothing is
    raised; when the entry exists but cannot be opened, the error of
    [open] is raised. *)
Theorem C3_load_gitignore_patterns dir directory :
  default_patterns GitignoreParser_init =
    [ "node_modules"; "dist"; "__pycache__"; "*.pyc"; ".git"; ".DS_Store";
      "build"; ".env"; "venv"; ".venv" ] /\
  match fs.lookup dir ".gitignore" with
  | File (Some f) =>
      exists g, load_gitignore GitignoreParser_init dir directory = Done g /\
        patterns g =
          (default_patterns GitignoreParser_init ++ gitignore_patterns_spec (fs.lines f))%list
  | Absent =>
      exists g, load_gitignore GitignoreParser_init dir directory = Done g /\
        patterns g = default_patterns GitignoreParser_init
  | unopenable =>
      exists e, fs.open_read unopenable = Raised e /\
        load_gitignore GitignoreParser_init dir directory = Raised e
  end.
Proof.
  split; [reflexivity|].
  rewrite load_gitignore_cases.
  destruct (fs.lookup dir ".gitignore") as [|[f|]|r es]; simpl; eauto.
Qed.

(** ** The directory-only test *)

Lemma endswith_nil p : Py.endswith p "" = Py.is_empty p.
Proof. now destruct p. Qed.

Lemma rstrip_char_no_trailing c s :
  Py.endswith (String c "") (Py.rstrip_char c s) = false.
Proof.
  unfold Py.rstrip_char.
  induction s as [|a s IH]; [reflexivity|].
  simpl Py.rstrip_by.
  destruct (Py.rstrip_by (Py.is_char c) s) as [|b t] eqn:E.
  - simpl. unfold Py.is_char. destruct (Ascii.eqb a c) eqn:Eac; [reflexivity|].
    simpl. now rewrite Eac.
  - simpl Py.is_empty. cbv iota beta. simpl andb. cbv iota.
    change (Py.endswith (String c "") (String a (String b t)))
      with (String.eqb (String a (String b t)) (String c "")
            || Py.endswith (String c "") (String b t)).
    rewrite IH. simpl. destruct (Ascii.eqb a c); [|reflexivity].
    now destruct (Ascii.eqb b c).
Qed.

Lemma strip_char_no_trailing c s :
  Py.endswith (String c "") (Py.strip_char c s) = false.
Proof. apply rstrip_char_no_trailing. Qed.

Lemma gitignore_patterns_no_trailing_slash lines pattern :
  In pattern (gitignore_patterns_spec lines) -> Py.endswith "/" pattern = false.
Proof.
  unfold gitignore_patterns_spec. rewrite in_map_iff.
  intros (l & <- & _). apply strip_char_no_trailing.
Qed.

(** No pattern that [load_gitignore] stores ends with a slash: the test
    for directory-only patterns in [should_ignore] never fires. *)
Lemma loaded_patterns_no_trailing_slash dir directory g pattern :
  load_gitignore GitignoreParser_init dir directory = Done g ->
  In pattern (patterns g) -> Py.endswith "/" pattern = false.
Proof.
  rewrite load_gitignore_cases.
  destruct (fs.lookup dir ".gitignore") as [|[f|]|r es]; intros H; inversion H; subst; simpl.
  - intros Hin. repeat (destruct Hin as [<-|Hin]; [reflexivity|]). destruct Hin.
  - intros Hin.
    repeat (destruct Hin as [<-|Hin]; [reflexivity|]).
    now apply gitignore_patterns_no_trailing_slash in Hin.
Qed.

(** C2 (the code departs from it): with the [.gitignore] line [foo/], the
    stored pattern is [foo] and a regular file named [foo] is ignored,
    like a directory of that name. *)
Theorem C2_directory_only_pattern_ignores_file :
  let root := Dir true [(".gitignore", File (Some "foo/")); ("foo", File (Some ""))] in
  exists g,
    load_gitignore GitignoreParser_init root "proj" = Done g /\
    patterns g = (default_patterns GitignoreParser_init ++ ["foo"])%list /\
    should_ignore g "proj/foo" false = true /\
    should_ignore g "proj/foo" true = true /\
    stdout (tree root [] "proj" 0 "" GitignoreParser_init) = ["proj"; "    ├── .gitignore"].
Proof.
  eexists. split; [reflexivity|]. repeat split; vm_compute; reflexivity.
Qed.

(** ** The connector *)

(** C1 (the code departs from it): an entry that is the last, here the
    only one, of its parent's surviving entries is printed with the
    connector of a middle entry. *)
Theorem C1_last_entry_printed_with_mid_connector :
  let root := Dir true [("a.txt", File (Some ""))] in
  surviving (mkParser (default_patterns GitignoreParser_init)
                      (default_patterns GitignoreParser_init))
            (pathlib.of_str "proj") [("a.txt", File (Some ""))]
    = [("a.txt", File (Some ""))] /\
  tree root [] "proj" 0 "" GitignoreParser_init =
    ([ mkPrinted "proj" 0 "proj";
       mkPrinted "proj/a.txt" 1 ("    " ++ mid_connector ++ "a.txt") ], Done tt).
Proof.
  split; vm_compute; reflexivity.
Qed.

(** ** The wildcard-directory rule *)

Lemma should_ignore_loop_match pats path name is_dir pattern :
  In pattern pats ->
  Py.endswith "/" pattern && negb is_dir = false ->
  (fnmatch.fnmatch path (Py.rstrip_char "/" pattern)
   || fnmatch.fnmatch name (Py.rstrip_char "/" pattern)
   || double_star path (Py.rstrip_char "/" pattern)) = true ->
  should_ignore_loop pats path name is_dir = true.
Proof.
  intros Hin Hskip Hm.
  induction pats as [|q pats IH]; [destruct Hin|].
  simpl.
  destruct Hin as [->|Hin].
  - rewrite Hskip.
    destruct (fnmatch.fnmatch path (Py.rstrip_char "/" pattern)
              || fnmatch.fnmatch name (Py.rstrip_char "/" pattern)); [reflexivity|].
    simpl in Hm. now rewrite Hm.
  - destruct (Py.endswith "/" q && negb is_dir); [now apply IH|].
    destruct (fnmatch.fnmatch path (Py.rstrip_char "/" q)
              || fnmatch.fnmatch name (Py.rstrip_char "/" q)); [reflexivity|].
    destruct (double_star path (Py.rstrip_char "/" q)); [reflexivity|now apply IH].
Qed.

(** C4, as stated, fails: [a**a**a] splits around its first [**] into
    [a] and [a**a], the path [a**a] starts with the one and ends with
    the other, and yet it is not ignored: the code splits around every
    occurrence and gets three parts. *)
Lemma C4_two_occurrences_no_match :
  let root := Dir true [(".gitignore", File (Some "a**a**a")); ("a**a", File (Some ""))] in
  let g := mkParser (default_patterns GitignoreParser_init ++ ["a**a**a"])%list
                    (default_patterns GitignoreParser_init) in
  load_gitignore GitignoreParser_init root "." = Done g /\
  split_first "**" "a**a**a" = ["a"; "a**a"] /\
  Py.startswith "a" (os_path.normpath "a**a") = true /\
  Py.endswith "a**a" (os_path.normpath "a**a") = true /\
  Py.split "**" "a**a**a" = ["a"; "a"; "a"] /\
  should_ignore g "a**a" false = false /\
  stdout (tree root [] "." 0 "" GitignoreParser_init)
    = [""; "    ├── .gitignore"; "    ├── a**a"].
Proof.
  repeat split; vm_compute; reflexivity.
Qed.

(** C4 (amended): for every pattern containing [**], [should_ignore]
    splits the pattern (rid of trailing slashes) around every occurrence
    of [**], and when exactly two parts result it reports a match
    whenever the normalized path starts with the first part and ends
    with the second, unless the pattern is skipped as directory-only. *)
Theorem C4_double_star_rule g path is_dir pattern part0 part1 :
  In pattern (patterns g) ->
  Py.endswith "/" pattern && negb is_dir = false ->
  Py.contains "**" (Py.rstrip_char "/" pattern) = true ->
  Py.split "**" (Py.rstrip_char "/" pattern) = [part0; part1] ->
  Py.startswith part0 (os_path.normpath path) = true ->
  Py.endswith part1 (os_path.normpath path) = true ->
  should_ignore g path is_dir = true.
Proof.
  intros Hin Hskip Hc Hs H0 H1.
  unfold should_ignore.
  apply should_ignore_loop_match with (pattern := pattern); trivial.
  unfold double_star. rewrite Hc, Hs, H0, H1. apply orb_true_r.
Qed.

(** The rule at work where [fnmatch] alone finds no match. *)
Lemma C4_double_star_rule_witness :
  should_ignore (mkParser ["src/**.bak/"; "docs**[x]"] []) "docs/a/[x]" true = true.
Proof.
  apply (C4_double_star_rule (mkParser ["src/**.bak/"; "docs**[x]"] [])
           "docs/a/[x]" true "docs**[x]" "docs" "[x]");
    try reflexivity.
  simpl. right. left. reflexivity.
Defined.

(** ** The shape of a call of [tree] *)

Lemma insert_map {A B K : Type} (le : K -> K -> bool) (kb : B -> K) (ka : A -> K)
  (f : A -> B) (Hk : forall a, kb (f a) = ka a) x l :
  Py.insert le kb (f x) (map f l) = map f (Py.insert le ka x l).
Proof.
  induction l as [|y l IH]; simpl; [reflexivity|].
  rewrite !Hk. destruct (le (ka x) (ka y)); simpl; [reflexivity|now rewrite IH].
Qed.

Lemma sorted_map {A B K : Type} (le : K -> K -> bool) (kb : B -> K) (ka : A -> K)
  (f : A -> B) (Hk : forall a, kb (f a) = ka a) l :
  Py.sorted le kb (map f l) = map f (Py.sorted le ka l).
Proof.
  induction l as [|x l IH]; simpl; [reflexivity|].
  rewrite IH. now apply insert_map.
Qed.

Lemma filter_map {A B : Type} (f : A -> B) (p : B -> bool) l :
  filter p (map f l) = map f (filter (fun a => p (f a)) l).
Proof.
  induction l as [|x l IH]; simpl; [reflexivity|].
  destruct (p (f x)); simpl; now rewrite IH.
Qed.

Lemma enumerate_from_map {A B : Type} (f : A -> B) l : forall i,
  Py.enumerate_from i (map f l) = map (fun ix => (fst ix, f (snd ix))) (Py.enumerate_from i l).
Proof.
  induction l as [|x l IH]; intros i; simpl; [reflexivity|now rewrite IH].
Qed.

Lemma for_each_map {A B : Type} (f : A -> B) (body : B -> io unit) l :
  for_each (map f l) body = for_each l (fun a => body (f a)).
Proof.
  induction l as [|x l IH]; simpl; [reflexivity|now rewrite IH].
Qed.

Lemma for_each_ext {A : Type} (body body' : A -> io unit) l :
  (forall a, In a l -> body a = body' a) -> for_each l body = for_each l body'.
Proof.
  induction l as [|x l IH]; intros H; simpl; [reflexivity|].
  rewrite (H x (or_introl eq_refl)), IH; [reflexivity|].
  intros a Ha. apply H. now right.
Qed.

Lemma name_child p x : pathlib.name (pathlib.child p x) = x.
Proof. unfold pathlib.name, pathlib.child; simpl. apply last_last. Qed.

Lemma bind_done {A B : Type} (a : A) (k : A -> io B) : bind ([], Done a) k = k a.
Proof. unfold bind. now destruct (k a). Qed.

Lemma bind_ext {A B : Type} (m m' : io A) (k k' : A -> io B) :
  m = m' -> (forall a, k a = k' a) -> bind m k = bind m' k'.
Proof.
  intros <- H. unfold bind. destruct m as [out [a|e]]; [now rewrite H|reflexivity].
Qed.

Lemma tree_eq n siblings directory level prefix g0 :
  tree n siblings directory level prefix g0 =
  match parser_of n directory level g0 with
  | Raised e => ([], Raised e)
  | Done g =>
      if should_ignore g (pathlib.str (pathlib.of_str directory)) (fs.is_dir n)
      then ([], Done tt)
      else
        print (at_path (own_line siblings directory level prefix)) level
              (text (own_line siblings directory level prefix)) ;;;
        match n with
        | Dir true entries =>
            children_loop g (pathlib.of_str directory) entries level prefix
        | _ => ret tt
        end
  end.
Proof.
  assert (Hany : forall l : list (string * node),
             negb (Py.any (map (fun e => pathlib.truth
                                           (pathlib.child
                                              (pathlib.parent (pathlib.of_str directory))
                                              (fst e))) l))
             = match l with [] => true | _ :: _ => false end)
    by (intros [|? ?]; reflexivity).
  assert (Hstart :
    forall k : GitignoreParser -> io unit,
      bind (if Nat.eqb level 0
            then lift (load_gitignore GitignoreParser_init n directory)
            else ret g0) k
      = match parser_of n directory level g0 with
        | Raised e => ([], Raised e)
        | Done g => k g
        end).
  { intros k. unfold parser_of, lift, ret.
    destruct (Nat.eqb level 0); [|apply bind_done].
    destruct (load_gitignore _ _ _); [apply bind_done|reflexivity]. }
  unfold own_line; cbn [at_path text].
  destruct n as [|c|readable entries]; cbn [tree]; rewrite Hstart;
    destruct (parser_of _ directory level g0) as [g|e]; try reflexivity;
    cbn [fs.is_dir];
    match goal with
    | |- context [should_ignore ?g ?p ?d] => destruct (should_ignore g p d)
    end; try reflexivity; rewrite Hany.
  1-2: destruct (Nat.eqb level 0), siblings; reflexivity.
  apply bind_ext; [destruct (Nat.eqb level 0), siblings; reflexivity|intros _].
  destruct readable; cbn [fs.iterdir]; [|reflexivity].
  unfold children_loop, surviving.
  rewrite (sorted_map key_le item_key entry_key) by
    (intros [x m]; unfold item_key, entry_key, item_node, item_path; cbn [fst snd];
     now rewrite name_child).
  rewrite filter_map; unfold Py.enumerate; rewrite enumerate_from_map, for_each_map.
  rewrite length_map.
  apply for_each_ext; intros [i [x m]] _; unfold new_prefix, item_tree, item_path;
    cbn [fst snd]; reflexivity.
Qed.

(** ** Sorting and filtering the entries *)

Lemma insert_perm {A K : Type} (le : K -> K -> bool) (key : A -> K) x l :
  Permutation (Py.insert le key x l) (x :: l).
Proof.
  induction l as [|y l IH]; simpl; [reflexivity|].
  destruct (le (key x) (key y)); [reflexivity|].
  rewrite IH. apply perm_swap.
Qed.

Lemma sorted_perm {A K : Type} (le : K -> K -> bool) (key : A -> K) l :
  Permutation (Py.sorted le key l) l.
Proof.
  induction l as [|x l IH]; simpl; [reflexivity|].
  rewrite insert_perm. now constructor.
Qed.

Lemma surviving_in g p entries e :
  In e (surviving g p entries) <->
  In e entries /\
  should_ignore g (pathlib.str (pathlib.child p (fst e))) (fs.is_dir (snd e)) = false.
Proof.
  unfold surviving. rewrite filter_In, negb_true_iff.
  split; intros [H1 H2]; split; trivial.
  - eapply Permutation_in; [apply (sorted_perm key_le entry_key)|exact H1].
  - eapply Permutation_in; [apply Permutation_sym, (sorted_perm key_le entry_key)|exact H1].
Qed.

Lemma enumerate_from_in {A : Type} (l : list A) : forall i ie,
  In ie (Py.enumerate_from i l) -> In (snd ie) l.
Proof.
  induction l as [|x l IH]; intros i ie; simpl; [tauto|].
  intros [<-|H]; [now left|right; eauto].
Qed.

Lemma enumerate_from_snd {A : Type} (l : list A) : forall i,
  map snd (Py.enumerate_from i l) = l.
Proof.
  induction l as [|x l IH]; intros i; simpl; [reflexivity|now rewrite IH].
Qed.

(** ** Calls below the root neither load nor raise *)

Lemma for_each_done {A : Type} (body : A -> io unit) l :
  (forall a, In a l -> snd (body a) = Done tt) ->
  for_each l body = (flat_map (fun a => fst (body a)) l, Done tt).
Proof.
  induction l as [|x l IH]; intros H; simpl; [reflexivity|].
  rewrite IH by (intros a Ha; apply H; now right).
  specialize (H x (or_introl eq_refl)).
  unfold bind. destruct (body x) as [out r]; simpl in *. now subst r.
Qed.

Lemma tree_below_root_done n : forall siblings directory level prefix g,
  level <> 0 -> snd (tree n siblings directory level prefix g) = Done tt.
Proof.
  induction n as [|content|readable entries IH] using node_induction;
    intros siblings directory level prefix g Hl; rewrite tree_eq; unfold parser_of;
    destruct (Nat.eqb_spec level 0) as [|_]; try contradiction;
    destruct (should_ignore _ _ _); try reflexivity.
  destruct readable; [|reflexivity].
  unfold children_loop. rewrite for_each_done; [reflexivity|].
  intros ie Hie. apply enumerate_from_in in Hie. apply surviving_in in Hie as [Hie _].
  rewrite Forall_forall in IH. apply (IH _ Hie). lia.
Qed.

Lemma children_loop_eq g path entries level prefix :
  children_loop g path entries level prefix =
  (children_lines g path entries level prefix, Done tt).
Proof.
  unfold children_loop, children_lines. apply for_each_done.
  intros ie _. apply tree_below_root_done. lia.
Qed.

(** Every call either raises while loading (on level 0 only) or returns
    after printing nothing, if the path is ignored, or else its own line
    followed by the lines of its surviving entries. *)
Lemma tree_lines n siblings directory level prefix g0 :
  tree n siblings directory level prefix g0 =
  match parser_of n directory level g0 with
  | Raised e => ([], Raised e)
  | Done g =>
      (if should_ignore g (pathlib.str (pathlib.of_str directory)) (fs.is_dir n)
       then []
       else own_line siblings directory level prefix ::
            match n with
            | Dir true entries =>
                children_lines g (pathlib.of_str directory) entries level prefix
            | _ => []
            end,
       Done tt)
  end.
Proof.
  rewrite tree_eq.
  destruct (parser_of n directory level g0) as [g|e]; [|reflexivity].
  destruct (should_ignore _ _ _); [reflexivity|].
  assert (Hown : forall o, at_path o = pathlib.str (pathlib.of_str directory) ->
                           depth o = level -> mkPrinted (at_path o) level (text o) = o)
    by (intros [a d t]; simpl; intros _ <-; reflexivity).
  destruct n as [| |[|] entries]; unfold print, bind, ret;
    rewrite ?children_loop_eq; rewrite Hown by reflexivity; reflexivity.
Qed.

(** ** A directory that cannot be listed *)




(** ** Strings, separators and paths *)

Lemma prefix_nil s : String.prefix "" s = true.
Proof. now destruct s. Qed.

Lemma startswith_cons d p c r :
  Py.startswith (String d p) (String c r) = Ascii.eqb c d && Py.startswith p r.
Proof.
  unfold Py.startswith; cbn [String.prefix].
  destruct (ascii_dec d c) as [->|Hn].
  - now rewrite Ascii.eqb_refl.
  - assert (E : Ascii.eqb c d = false) by (apply Ascii.eqb_neq; congruence).
    now rewrite E.
Qed.

Lemma startswith_nil s : Py.startswith "" s = true.
Proof. apply prefix_nil. Qed.

Lemma startswith_char_cons d c r :
  Py.startswith (String d "") (String c r) = Ascii.eqb c d.
Proof. now rewrite startswith_cons, startswith_nil, andb_true_r. Qed.

Lemma contains_slash_cons c r :
  Py.contains "/" (String c r) = Ascii.eqb c "/" || Py.contains "/" r.
Proof.
  change (Py.contains "/" (String c r))
    with (Py.startswith "/" (String c r) || Py.contains "/" r).
  now rewrite startswith_char_cons.
Qed.

Lemma contains_slash_app x y :
  Py.contains "/" (x ++ y) = Py.contains "/" x || Py.contains "/" y.
Proof.
  induction x as [|c x IH].
  - simpl. reflexivity.
  - change (String c x ++ y) with (String c (x ++ y)).
    now rewrite !contains_slash_cons, IH, orb_assoc.
Qed.

Lemma split_go_slash_cons c r cur :
  Py.split_go "/" (String c r) 0 cur =
  if Ascii.eqb c "/" then cur :: Py.split_go "/" r 0 ""
  else Py.split_go "/" r 0 (cur ++ String c "").
Proof.
  cbn [Py.split_go].
  change (String.prefix "/" (String c r)) with (Py.startswith "/" (String c r)).
  rewrite startswith_char_cons. reflexivity.
Qed.

Lemma append_nil_r s : s ++ "" = s.
Proof. induction s as [|c s IH]; simpl; [reflexivity|now rewrite IH]. Qed.

Lemma append_assoc (a b c : string) : (a ++ b) ++ c = a ++ (b ++ c).
Proof. induction a as [|x a IH]; simpl; [reflexivity|now rewrite IH]. Qed.

(** A piece without separator is read in one go. *)
Lemma split_go_slash_app x : forall s cur,
  Py.contains "/" x = false ->
  Py.split_go "/" (x ++ s) 0 cur = Py.split_go "/" s 0 (cur ++ x).
Proof.
  induction x as [|c x IH]; intros s cur Hx.
  - simpl. now rewrite append_nil_r.
  - rewrite contains_slash_cons in Hx. apply orb_false_iff in Hx as [Hc Hx].
    change (String c x ++ s) with (String c (x ++ s)).
    rewrite split_go_slash_cons, Hc, IH by assumption.
    now rewrite append_assoc.
Qed.

Lemma split_go_slash_pieces s : forall cur,
  Py.contains "/" cur = false ->
  Forall (fun x => Py.contains "/" x = false) (Py.split_go "/" s 0 cur).
Proof.
  induction s as [|c s IH]; intros cur Hcur.
  - simpl. now constructor.
  - rewrite split_go_slash_cons. destruct (Ascii.eqb c "/") eqn:Hc.
    + constructor; [assumption|]. now apply IH.
    + apply IH. rewrite contains_slash_app, Hcur, contains_slash_cons, Hc. reflexivity.
Qed.

Lemma split_join_slash x xs :
  Forall (fun y => Py.contains "/" y = false) (x :: xs) ->
  Py.split "/" (Py.join "/" (x :: xs)) = x :: xs.
Proof.
  unfold Py.split, Py.join. revert x.
  induction xs as [|y ys IH]; intros x H; inversion H as [|? ? Hx Hxs]; subst.
  - simpl. rewrite <- (append_nil_r x) at 1.
    rewrite split_go_slash_app by assumption. reflexivity.
  - change (String.concat "/" (x :: y :: ys))
      with (x ++ String "/" (String.concat "/" (y :: ys))).
    rewrite split_go_slash_app by assumption.
    rewrite split_go_slash_cons. simpl Ascii.eqb. cbv iota.
    f_equal. now apply IH.
Qed.

Lemma valid_name_iff x :
  valid_name x = true <-> x <> "" /\ x <> "." /\ Py.contains "/" x = false.
Proof.
  unfold valid_name. rewrite !andb_true_iff, !negb_true_iff, !String.eqb_neq. tauto.
Qed.

Lemma parts_of_str_valid s :
  Forall (fun x => valid_name x = true) (pathlib.parts (pathlib.of_str s)).
Proof.
  unfold pathlib.of_str; cbn [pathlib.parts].
  apply Forall_forall. intros x Hx. apply filter_In in Hx as [Hin Hx].
  apply andb_true_iff in Hx as [H1 H2].
  unfold valid_name. rewrite H1, H2. simpl.
  pose proof (split_go_slash_pieces s "" eq_refl) as Hp.
  rewrite Forall_forall in Hp. unfold Py.split in Hin. now rewrite (Hp x Hin).
Qed.

Lemma root_of_str s :
  pathlib.root (pathlib.of_str s) = "" \/
  pathlib.root (pathlib.of_str s) = "/" \/
  pathlib.root (pathlib.of_str s) = "//".
Proof.
  unfold pathlib.of_str; cbn [pathlib.root].
  destruct (Py.startswith "/" s); [|now left].
  destruct (Py.startswith "//" s && negb (Py.startswith "///" s)); auto.
Qed.

(** Parsing what a path with at least one component prints as gives
    the path back. *)
Lemma of_str_str root x xs :
  root = "" \/ root = "/" \/ root = "//" ->
  Forall (fun y => valid_name y = true) (x :: xs) ->
  pathlib.of_str (pathlib.str (pathlib.mkPath root (x :: xs))) =
  pathlib.mkPath root (x :: xs).
Proof.
  intros Hroot Hv.
  assert (Hs : Forall (fun y => Py.contains "/" y = false) (x :: xs)).
  { eapply Forall_impl; [|exact Hv]. intros y Hy. now apply valid_name_iff in Hy. }
  assert (Hf : filter (fun y => negb (String.eqb y "") && negb (String.eqb y "."))
                      (x :: xs) = x :: xs).
  { apply forallb_filter_id. apply forallb_forall. intros y Hy.
    rewrite Forall_forall in Hv. specialize (Hv y Hy).
    unfold valid_name in Hv. now apply andb_true_iff in Hv as [Hv _]. }
  pose proof (split_join_slash x xs Hs) as Hsp.
  inversion Hv as [|? ? Hx _]; subst.
  apply valid_name_iff in Hx as (Hne & _ & Hns).
  destruct x as [|c x]; [congruence|].
  rewrite contains_slash_cons in Hns. apply orb_false_iff in Hns as [Hc _].
  assert (Hj : exists t, Py.join "/" (String c x :: xs) = String c t).
  { unfold Py.join. destruct xs; simpl; eauto. }
  destruct Hj as [t Hj].
  unfold pathlib.str, pathlib.of_str; cbn [pathlib.root pathlib.parts].
  unfold Py.split in *.
  destruct Hroot as [->|[->| ->]]; rewrite Hj in *; simpl Py.is_empty; cbv iota.
  - change ("" ++ String c t) with (String c t).
    rewrite startswith_char_cons, Hc, Hsp, Hf. reflexivity.
  - change ("/" ++ String c t) with (String "/" (String c t)).
    rewrite startswith_char_cons. simpl Ascii.eqb. cbv iota.
    assert (H2 : Py.startswith "//" (String "/" (String c t)) = false).
    { now rewrite !startswith_cons, Hc, andb_false_r. }
    rewrite H2. simpl andb. cbv iota.
    rewrite split_go_slash_cons. simpl Ascii.eqb. cbv iota.
    rewrite Hsp.
    change (filter ?f ("" :: ?l)) with (filter f l).
    rewrite Hf. reflexivity.
  - change ("//" ++ String c t) with (String "/" (String "/" (String c t))).
    rewrite startswith_char_cons. simpl Ascii.eqb. cbv iota.
    assert (H2 : Py.startswith "//" (String "/" (String "/" (String c t))) = true).
    { now rewrite !startswith_cons, startswith_nil. }
    assert (H3 : Py.startswith "///" (String "/" (String "/" (String c t))) = false).
    { now rewrite !startswith_cons, Hc, !andb_false_r. }
    rewrite H2, H3. simpl andb. cbv iota.
    do 2 (rewrite split_go_slash_cons; simpl Ascii.eqb; cbv iota).
    rewrite Hsp.
    change (filter ?f ("" :: "" :: ?l)) with (filter f l).
    rewrite Hf. reflexivity.
Qed.

Lemma of_str_str_child s x :
  valid_name x = true ->
  pathlib.of_str (pathlib.str (pathlib.child (pathlib.of_str s) x)) =
  pathlib.child (pathlib.of_str s) x.
Proof.
  intros Hx. unfold pathlib.child.
  pose proof (parts_of_str_valid s) as Hp.
  assert (Hall : Forall (fun y => valid_name y = true)
                        (pathlib.parts (pathlib.of_str s) ++ [x])%list)
    by (apply Forall_app; split; [assumption|now constructor]).
  destruct (pathlib.parts (pathlib.of_str s) ++ [x])%list as [|y ys] eqn:E.
  - now destruct (pathlib.parts (pathlib.of_str s)).
  - apply of_str_str; [apply root_of_str|assumption].
Qed.

Lemma parent_child p x : pathlib.parent (pathlib.child p x) = p.
Proof.
  destruct p as [root parts]. unfold pathlib.parent, pathlib.child; cbn [pathlib.root pathlib.parts].
  now rewrite removelast_last.
Qed.

(** The parent of the path handed to a recursive call is the path of
    the directory being listed. *)
Lemma parent_of_listed_entry s x :
  valid_name x = true ->
  pathlib.parent (pathlib.of_str (pathlib.str (pathlib.child (pathlib.of_str s) x)))
  = pathlib.of_str s.
Proof. intros Hx. now rewrite of_str_str_child, parent_child. Qed.

Lemma wf_entry readable entries x m :
  wf (Dir readable entries) = true -> In (x, m) entries ->
  valid_name x = true /\ wf m = true.
Proof.
  cbn [wf]. rewrite forallb_forall. intros H Hin.
  apply H in Hin. now apply andb_true_iff in Hin.
Qed.

Lemma children_lines_in g path entries level prefix pr :
  In pr (children_lines g path entries level prefix) ->
  exists i x m,
    In (x, m) entries /\
    should_ignore g (pathlib.str (pathlib.child path x)) (fs.is_dir m) = false /\
    In pr (fst (tree m entries (pathlib.str (pathlib.child path x)) (level + 1)
                     (new_prefix level prefix i (List.length (surviving g path entries)))
                     g)).
Proof.
  unfold children_lines. rewrite in_flat_map. intros ([i [x m]] & Hie & Hpr).
  apply enumerate_from_in in Hie. apply surviving_in in Hie as [Hin Hs].
  exists i, x, m. auto.
Qed.

Lemma parser_of_below n directory level g : parser_of n directory (level + 1) g = Done g.
Proof. unfold parser_of. now rewrite Nat.add_1_r. Qed.

(** ** Ignored paths *)

Lemma tree_ignored n siblings directory level prefix g0 g :
  parser_of n directory level g0 = Done g ->
  should_ignore g (pathlib.str (pathlib.of_str directory)) (fs.is_dir n) = true ->
  tree n siblings directory level prefix g0 = ([], Done tt).
Proof. intros Hg Hi. now rewrite tree_lines, Hg, Hi. Qed.

(** Whatever is printed is printed for an entry that the walk keeps. *)
Lemma tree_printed_kept root top g n :
  wf n = true ->
  forall siblings directory level prefix g0 pr,
    parser_of n directory level g0 = Done g ->
    (should_ignore g (pathlib.str (pathlib.of_str directory)) (fs.is_dir n) = false ->
     kept g root top n (pathlib.of_str directory)) ->
    In pr (fst (tree n siblings directory level prefix g0)) ->
    exists m q, kept g root top m q /\ at_path pr = pathlib.str q.
Proof.
  induction n as [|content|readable entries IH] using node_induction;
    intros Hwf siblings directory level prefix g0 pr Hg Hk;
    rewrite tree_lines, Hg; cbn [fst];
    (destruct (should_ignore _ _ _) eqn:Hi; [intros []|]);
    specialize (Hk eq_refl).
  1-2: intros [<-|[]]; eauto.
  intros [<-|Hpr]; [eauto|].
  destruct readable; [|destruct Hpr].
  apply children_lines_in in Hpr as (i & x & m & Hin & Hs & Hpr).
  destruct (wf_entry _ _ _ _ Hwf Hin) as [Hx Hm].
  rewrite Forall_forall in IH.
  apply (IH (x, m) Hin Hm) in Hpr; [exact Hpr|apply parser_of_below|].
  intros _. rewrite of_str_str_child by assumption.
  now apply kept_child with (entries := entries).
Qed.

Lemma kept_not_ignored g root top n p :
  kept g root top n p -> should_ignore g (pathlib.str p) (fs.is_dir n) = false.
Proof. now intros [|]. Qed.

Lemma default_first_pattern dir directory g :
  load_gitignore GitignoreParser_init dir directory = Done g ->
  exists rest, patterns g = "node_modules" :: rest.
Proof.
  intros H. apply load_gitignore_patterns in H as [extra ->]. simpl. eauto.
Qed.

(** C5: a path that [should_ignore] reports gets no line, and neither do
    the entries below it, on the root level as on any other; every line
    printed is for an entry reached from the root through directories
    that were listed and not ignored, itself not ignored; and an entry
    with base name [node_modules] is ignored whatever the [.gitignore]
    holds. *)
Theorem C5_ignored_paths_not_printed root directory g :
  wf root = true ->
  load_gitignore GitignoreParser_init root directory = Done g ->
  (forall siblings prefix g0,
     should_ignore g (pathlib.str (pathlib.of_str directory)) (fs.is_dir root) = true ->
     tree root siblings directory 0 prefix g0 = ([], Done tt)) /\
  (forall n siblings path level prefix,
     level <> 0 ->
     should_ignore g (pathlib.str (pathlib.of_str path)) (fs.is_dir n) = true ->
     tree n siblings path level prefix g = ([], Done tt)) /\
  (forall siblings prefix g0 pr,
     In pr (fst (tree root siblings directory 0 prefix g0)) ->
     exists n p,
       kept g root (pathlib.of_str directory) n p /\
       at_path pr = pathlib.str p /\
       should_ignore g (pathlib.str p) (fs.is_dir n) = false) /\
  (forall path is_dir,
     os_path.basename (os_path.normpath path) = "node_modules" ->
     should_ignore g path is_dir = true).
Proof.
  intros Hwf Hg. repeat split.
  - intros siblings prefix g0 Hi. now apply tree_ignored with (g := g).
  - intros n siblings path level prefix Hl Hi. apply tree_ignored with (g := g); trivial.
    unfold parser_of. now destruct (Nat.eqb_spec level 0).
  - intros siblings prefix g0 pr Hpr.
    apply (tree_printed_kept root (pathlib.of_str directory) g root Hwf) in Hpr;
      [|exact Hg|apply kept_root].
    destruct Hpr as (m & q & Hk & Hq). exists m, q.
    repeat split; trivial. now apply kept_not_ignored in Hk.
  - intros path is_dir Hn.
    destruct (default_first_pattern _ _ _ Hg) as [rest Hp].
    unfold should_ignore. rewrite Hp, Hn.
    apply should_ignore_loop_match with (pattern := "node_modules");
      [now left|reflexivity|].
    change (Py.rstrip_char "/" "node_modules") with "node_modules".
    change (fnmatch.fnmatch "node_modules" "node_modules") with true.
    now rewrite orb_true_r.
Qed.

(** A root named [node_modules] prints nothing, whatever it holds. *)
Lemma C5_ignored_paths_not_printed_witness :
  tree (Dir true [("main.js", File (Some "")); ("lib", Dir true [("a.js", File None)])])
       [] "work/node_modules" 0 "" GitignoreParser_init
  = ([], Done tt).
Proof.
  apply (proj1 (C5_ignored_paths_not_printed
                  (Dir true [("main.js", File (Some "")); ("lib", Dir true [("a.js", File None)])])
                  "work/node_modules"
                  (mkParser (default_patterns GitignoreParser_init)
                            (default_patterns GitignoreParser_init))
                  eq_refl eq_refl)).
  reflexivity.
Defined.

(** ** The order of the entries *)

Lemma ascii_compare_refl x : Ascii.compare x x = Eq.
Proof. unfold Ascii.compare. apply BinNat.N.compare_refl. Qed.

Lemma ascii_compare_lt_trans x y z :
  Ascii.compare x y = Lt -> Ascii.compare y z = Lt -> Ascii.compare x z = Lt.
Proof.
  unfold Ascii.compare. rewrite !BinNat.N.compare_lt_iff. apply BinNat.N.lt_trans.
Qed.

Lemma string_compare_lt_trans a : forall b c,
  String.compare a b = Lt -> String.compare b c = Lt -> String.compare a c = Lt.
Proof.
  induction a as [|x a IH]; intros [|y b] [|z c]; simpl; try discriminate; try reflexivity.
  destruct (Ascii.compare x y) eqn:Exy; destruct (Ascii.compare y z) eqn:Eyz;
    try discriminate; intros H1 H2.
  - apply Ascii.compare_eq_iff in Exy, Eyz. subst. rewrite ascii_compare_refl. eauto.
  - apply Ascii.compare_eq_iff in Exy. subst. now rewrite Eyz.
  - apply Ascii.compare_eq_iff in Eyz. subst. now rewrite Exy.
  - now rewrite (ascii_compare_lt_trans x y z).
Qed.

Lemma string_compare_refl a : String.compare a a = Eq.
Proof.
  induction a as [|x a IH]; simpl; [reflexivity|now rewrite ascii_compare_refl].
Qed.

Lemma string_leb_trans a b c :
  String.leb a b = true -> String.leb b c = true -> String.leb a c = true.
Proof.
  unfold String.leb.
  destruct (String.compare a b) eqn:Eab; try discriminate;
    destruct (String.compare b c) eqn:Ebc; try discriminate; intros _ _.
  - apply String.compare_eq_iff in Eab, Ebc. subst. now rewrite string_compare_refl.
  - apply String.compare_eq_iff in Eab. subst. now rewrite Ebc.
  - apply String.compare_eq_iff in Ebc. subst. now rewrite Eab.
  - now rewrite (string_compare_lt_trans a b c).
Qed.

Lemma key_le_total k1 k2 : key_le k1 k2 = false -> key_le k2 k1 = true.
Proof.
  destruct k1 as [[|] s1], k2 as [[|] s2]; unfold key_le; simpl; try discriminate; trivial;
    intros H; destruct (String.leb_total s1 s2) as [E|E]; congruence.
Qed.

Lemma key_le_trans k1 k2 k3 :
  key_le k1 k2 = true -> key_le k2 k3 = true -> key_le k1 k3 = true.
Proof.
  destruct k1 as [[|] s1], k2 as [[|] s2], k3 as [[|] s3]; unfold key_le; simpl;
    try discriminate; trivial; apply string_leb_trans.
Qed.

Section SortedByKey.
Context {A : Type} (key : A -> bool * string).

Lemma insert_strongly_sorted x l :
  StronglySorted (le_by_key key) l -> StronglySorted (le_by_key key) (Py.insert key_le key x l).
Proof.
  induction 1 as [|y l Hl IH Hy]; simpl.
  - repeat constructor.
  - destruct (key_le (key x) (key y)) eqn:E.
    + constructor; [now constructor|].
      constructor; [exact E|].
      eapply Forall_impl; [|exact Hy]. intros b Hb.
      unfold le_by_key in *. now apply key_le_trans with (k2 := key y).
    + constructor; [exact IH|].
      eapply Permutation_Forall; [apply Permutation_sym, insert_perm|].
      constructor; [now apply key_le_total|exact Hy].
Qed.

Lemma sorted_strongly_sorted l : StronglySorted (le_by_key key) (Py.sorted key_le key l).
Proof.
  induction l as [|x l IH]; simpl; [constructor|now apply insert_strongly_sorted].
Qed.

Lemma filter_strongly_sorted (p : A -> bool) l :
  StronglySorted (le_by_key key) l -> StronglySorted (le_by_key key) (filter p l).
Proof.
  induction 1 as [|y l Hl IH Hy]; simpl; [constructor|].
  destruct (p y); [|exact IH].
  constructor; [exact IH|].
  apply Forall_forall. intros b Hb. apply filter_In in Hb as [Hb _].
  rewrite Forall_forall in Hy. now apply Hy.
Qed.

Lemma strongly_sorted_nth l :
  StronglySorted (le_by_key key) l ->
  forall i j a b, i < j -> nth_error l i = Some a -> nth_error l j = Some b ->
                  key_le (key a) (key b) = true.
Proof.
  induction 1 as [|y l Hl IH Hy]; intros i j a b Hij Ha Hb.
  - now destruct i.
  - destruct j as [|j]; [lia|]. simpl in Hb.
    destruct i as [|i]; simpl in Ha.
    + inversion Ha; subst. rewrite Forall_forall in Hy.
      apply Hy. eapply nth_error_In; eassumption.
    + apply (IH i j); trivial. lia.
Qed.
End SortedByKey.

Lemma surviving_strongly_sorted g p entries :
  StronglySorted (le_by_key entry_key) (surviving g p entries).
Proof.
  unfold surviving. apply filter_strongly_sorted, sorted_strongly_sorted.
Qed.

(** ** The lines one level down *)

Lemma tree_depth_ge n : forall siblings directory level prefix g0 pr,
  In pr (fst (tree n siblings directory level prefix g0)) -> level <= depth pr.
Proof.
  induction n as [|content|readable entries IH] using node_induction;
    intros siblings directory level prefix g0 pr; rewrite tree_lines;
    (destruct (parser_of _ directory level g0) as [g|e]; [|intros []]); cbn [fst];
    (destruct (should_ignore _ _ _); [intros []|]).
  1-2: intros [<-|[]]; unfold own_line; simpl; lia.
  intros [<-|Hpr]; [unfold own_line; simpl; lia|].
  destruct readable; [|destruct Hpr].
  apply children_lines_in in Hpr as (i & x & m & Hin & _ & Hpr).
  rewrite Forall_forall in IH. apply (IH (x, m) Hin) in Hpr. lia.
Qed.

Lemma filter_flat_map {A B : Type} (p : B -> bool) (f : A -> list B) l :
  filter p (flat_map f l) = flat_map (fun a => filter p (f a)) l.
Proof.
  induction l as [|x l IH]; simpl; [reflexivity|now rewrite filter_app, IH].
Qed.

Lemma flat_map_singleton {A B : Type} (f : A -> list B) (h : A -> B) l :
  (forall a, In a l -> f a = [h a]) -> flat_map f l = map h l.
Proof.
  induction l as [|x l IH]; intros H; simpl; [reflexivity|].
  rewrite (H x (or_introl eq_refl)), IH; [reflexivity|].
  intros a Ha. apply H. now right.
Qed.

Lemma filter_none {A : Type} (p : A -> bool) l :
  (forall a, In a l -> p a = false) -> filter p l = [].
Proof.
  induction l as [|x l IH]; intros H; simpl; [reflexivity|].
  rewrite (H x (or_introl eq_refl)). apply IH. intros a Ha. apply H. now right.
Qed.

(** What a call prints for an entry that survived the filter of its
    parent: its line first, then lines of deeper levels only. *)
Lemma tree_child_lines g directory entries level prefix' x m :
  valid_name x = true ->
  In (x, m) entries ->
  should_ignore g (pathlib.str (pathlib.child (pathlib.of_str directory) x))
                (fs.is_dir m) = false ->
  exists deeper,
    fst (tree m entries (pathlib.str (pathlib.child (pathlib.of_str directory) x))
              (level + 1) prefix' g)
    = mkPrinted (pathlib.str (pathlib.child (pathlib.of_str directory) x)) (level + 1)
                (prefix' ++ mid_connector ++ x) :: deeper /\
    forall pr, In pr deeper -> level + 2 <= depth pr.
Proof.
  intros Hx Hin Hs.
  rewrite tree_lines, parser_of_below, of_str_str_child, Hs by assumption. cbn [fst].
  eexists. split.
  - f_equal. unfold own_line.
    rewrite of_str_str_child, name_child by assumption.
    rewrite Nat.add_1_r. cbn [Nat.eqb].
    destruct entries; [destruct Hin|reflexivity].
  - intros pr Hpr. destruct m as [| |[|] es]; try destruct Hpr.
    apply children_lines_in in Hpr as (i & y & k & _ & _ & Hpr).
    apply tree_depth_ge in Hpr. lia.
Qed.

Lemma children_lines_level g directory entries level prefix :
  wf (Dir true entries) = true ->
  filter (fun pr => Nat.eqb (depth pr) (level + 1))
         (children_lines g (pathlib.of_str directory) entries level prefix)
  = map (child_line (pathlib.of_str directory) level prefix
                    (List.length (surviving g (pathlib.of_str directory) entries)))
        (Py.enumerate (surviving g (pathlib.of_str directory) entries)).
Proof.
  intros Hwf. unfold children_lines. rewrite filter_flat_map.
  apply flat_map_singleton. intros [i [x m]] Hie.
  apply enumerate_from_in in Hie. apply surviving_in in Hie as [Hin Hs].
  cbn [fst snd] in *.
  destruct (wf_entry _ _ _ _ Hwf Hin) as [Hx _].
  destruct (tree_child_lines g directory entries level
              (new_prefix level prefix i
                 (List.length (surviving g (pathlib.of_str directory) entries)))
              x m Hx Hin Hs) as (deeper & -> & Hd).
  cbn [filter depth]. rewrite Nat.eqb_refl. unfold child_line. cbn [fst snd].
  f_equal. apply filter_none. intros pr Hpr. apply Hd in Hpr.
  apply Nat.eqb_neq. lia.
Qed.

Lemma key_le_entries a b :
  key_le (entry_key a) (entry_key b) = true ->
  (fs.is_dir (snd b) = true -> fs.is_dir (snd a) = true) /\
  (fs.is_dir (snd a) = fs.is_dir (snd b) ->
   String.leb (Py.lower (fst a)) (Py.lower (fst b)) = true).
Proof.
  unfold entry_key, sort_key, key_le; cbn [fst snd].
  destruct (fs.is_dir (snd a)), (fs.is_dir (snd b)); simpl; intros H; split;
    congruence.
Qed.

(** C7: the entries of a visited directory are printed in the order of
    its surviving entries (the lines one level down are theirs, one
    each, in that order); these are the entries of the listing that are
    not ignored; and in that order every directory comes before every
    other entry, and of two entries of the same kind the one whose
    lower-cased name is smaller or equal comes first. *)
Theorem C7_children_order n entries siblings directory level prefix g0 g :
  wf n = true ->
  fs.iterdir n = Done entries ->
  parser_of n directory level g0 = Done g ->
  should_ignore g (pathlib.str (pathlib.of_str directory)) true = false ->
  let path := pathlib.of_str directory in
  let kids := surviving g path entries in
  filter (fun pr => Nat.eqb (depth pr) (level + 1))
         (fst (tree n siblings directory level prefix g0))
    = map (child_line path level prefix (List.length kids)) (Py.enumerate kids) /\
  (forall e,
     In e kids <->
     In e entries /\
     should_ignore g (pathlib.str (pathlib.child path (fst e))) (fs.is_dir (snd e)) = false) /\
  (forall i j a b,
     i < j -> nth_error kids i = Some a -> nth_error kids j = Some b ->
     (fs.is_dir (snd b) = true -> fs.is_dir (snd a) = true) /\
     (fs.is_dir (snd a) = fs.is_dir (snd b) ->
      String.leb (Py.lower (fst a)) (Py.lower (fst b)) = true)).
Proof.
  intros Hwf Hl Hg Hi path kids.
  destruct n as [|c|[|] es]; try discriminate. inversion Hl; subst es.
  split; [|split; [intros e; apply surviving_in|]].
  - rewrite tree_lines, Hg. cbn [fs.is_dir fst]. rewrite Hi. cbn [filter].
    replace (Nat.eqb (depth (own_line siblings directory level prefix)) (level + 1))
      with false by (symmetry; apply Nat.eqb_neq; unfold own_line; simpl; lia).
    now apply children_lines_level.
  - intros i j a b Hij Ha Hb. apply key_le_entries.
    eapply (strongly_sorted_nth entry_key kids (surviving_strongly_sorted g path entries));
      eassumption.
Qed.

(** Directories first, names without regard to case, [dist] left out. *)
Lemma C7_children_order_witness :
  let n := Dir true [("b.txt", File (Some "")); ("a.txt", File (Some ""));
                     ("Sub", Dir true []); ("dist", Dir true []); ("lib", Dir true [])] in
  filter (fun pr => Nat.eqb (depth pr) 1) (fst (tree n [] "proj" 0 "" GitignoreParser_init))
  = [ mkPrinted "proj/lib" 1 "    ├── lib";
      mkPrinted "proj/Sub" 1 "    ├── Sub";
      mkPrinted "proj/a.txt" 1 "    ├── a.txt";
      mkPrinted "proj/b.txt" 1 "    ├── b.txt" ].
Proof.
  exact (proj1 (C7_children_order
                  (Dir true [("b.txt", File (Some "")); ("a.txt", File (Some ""));
                             ("Sub", Dir true []); ("dist", Dir true []); ("lib", Dir true [])])
                  [("b.txt", File (Some "")); ("a.txt", File (Some ""));
                   ("Sub", Dir true []); ("dist", Dir true []); ("lib", Dir true [])]
                  [] "proj" 0 "" GitignoreParser_init
                  (mkParser (default_patterns GitignoreParser_init)
                            (default_patterns GitignoreParser_init))
                  eq_refl eq_refl eq_refl eq_refl)).
Defined.

(** ** Patterns decided by the base name *)

Lemma matches_lits l : forall s,
  fnmatch.matches (map fnmatch.Lit l) s = String.eqb s (string_of_list_ascii l).
Proof.
  induction l as [|d l IH]; intros [|c r]; simpl; try reflexivity.
  now rewrite IH.
Qed.

Lemma matches_star_lits l s :
  fnmatch.matches (fnmatch.Star :: map fnmatch.Lit l) s
  = Py.endswith (string_of_list_ascii l) s.
Proof.
  cbn [fnmatch.matches].
  induction s as [|c r IH]; cbn [Py.endswith]; rewrite matches_lits.
  - reflexivity.
  - now rewrite IH.
Qed.

Lemma translate_go_plain s : forall b,
  plain s = true ->
  fnmatch.translate_go s 0 b = map fnmatch.Lit (list_ascii_of_string s).
Proof.
  induction s as [|c r IH]; intros b H; [reflexivity|].
  cbn [plain] in H. apply andb_true_iff in H as [Hc Hr].
  unfold special in Hc. rewrite negb_true_iff, !orb_false_iff in Hc.
  destruct Hc as [[H1 H2] H3].
  cbn [fnmatch.translate_go list_ascii_of_string map]. rewrite H1, H2, H3.
  now rewrite IH.
Qed.

Lemma fnmatch_plain name pat :
  plain pat = true -> fnmatch.fnmatch name pat = String.eqb name pat.
Proof.
  intros H. unfold fnmatch.fnmatch, fnmatch.translate.
  now rewrite translate_go_plain, matches_lits, string_of_list_ascii_of_string.
Qed.

Lemma fnmatch_star_plain name rest :
  plain rest = true ->
  fnmatch.fnmatch name (String "*" rest) = Py.endswith rest name.
Proof.
  intros H. unfold fnmatch.fnmatch, fnmatch.translate.
  cbn [fnmatch.translate_go]. simpl Ascii.eqb. cbv iota.
  now rewrite translate_go_plain, matches_star_lits, string_of_list_ascii_of_string.
Qed.

Lemma basename_no_slash s : Py.contains "/" s = false -> os_path.basename s = s.
Proof.
  destruct s as [|c r]; [reflexivity|].
  rewrite contains_slash_cons. intros H. apply orb_false_iff in H as [Hc Hr].
  cbn [os_path.basename]. now rewrite Hr, Hc.
Qed.

Lemma endswith_basename suffix : forall p,
  Py.contains "/" suffix = false ->
  Py.endswith suffix p = true -> Py.endswith suffix (os_path.basename p) = true.
Proof.
  intros p Hs. induction p as [|c r IH]; [trivial|].
  cbn [os_path.basename Py.endswith].
  intros H. apply orb_true_iff in H as [H|H].
  - apply String.eqb_eq in H. subst suffix.
    rewrite contains_slash_cons in Hs. apply orb_false_iff in Hs as [Hc Hr].
    rewrite Hr, Hc. cbn [Py.endswith]. now rewrite String.eqb_refl.
  - destruct (Py.contains "/" r); [now apply IH|].
    destruct (Ascii.eqb c "/"); [exact H|].
    cbn [Py.endswith]. rewrite H. apply orb_true_r.
Qed.

Lemma rstrip_no_slash s : Py.contains "/" s = false -> Py.rstrip_char "/" s = s.
Proof.
  unfold Py.rstrip_char.
  induction s as [|c r IH]; [reflexivity|].
  rewrite contains_slash_cons. intros H. apply orb_false_iff in H as [Hc Hr].
  cbn [Py.rstrip_by]. rewrite IH by assumption.
  unfold Py.is_char. rewrite Hc. now rewrite andb_false_r.
Qed.

Lemma endswith_slash_contains s : Py.endswith "/" s = true -> Py.contains "/" s = true.
Proof.
  induction s as [|c r IH]; [discriminate|].
  cbn [Py.endswith]. rewrite contains_slash_cons.
  intros H. apply orb_true_iff in H as [H|H].
  - apply String.eqb_eq in H. inversion H. reflexivity.
  - rewrite IH by assumption. apply orb_true_r.
Qed.

(** On the full path such a pattern matches only if it matches the base
    name. *)
Lemma name_pattern_decided pat p :
  name_pattern pat = true ->
  fnmatch.fnmatch p pat = true -> fnmatch.fnmatch (os_path.basename p) pat = true.
Proof.
  unfold name_pattern. rewrite !andb_true_iff, !negb_true_iff.
  intros [[Hs _] Hp].
  destruct pat as [|c rest].
  - rewrite !fnmatch_plain by reflexivity. intros H. apply String.eqb_eq in H. now subst p.
  - destruct (Ascii.eqb c "*") eqn:Hc.
    + apply Ascii.eqb_eq in Hc. subst c.
      rewrite !fnmatch_star_plain by assumption.
      apply endswith_basename.
      rewrite contains_slash_cons in Hs. now apply orb_false_iff in Hs.
    + rewrite !fnmatch_plain by assumption. intros H. apply String.eqb_eq in H. subst p.
      rewrite basename_no_slash by assumption. apply String.eqb_refl.
Qed.

Lemma should_ignore_loop_by_name pats p is_dir :
  forallb name_pattern pats = true ->
  should_ignore_loop pats p (os_path.basename p) is_dir
  = existsb (fun pat => fnmatch.fnmatch (os_path.basename p) pat) pats.
Proof.
  induction pats as [|pat pats IH]; [reflexivity|].
  cbn [forallb]. intros H. apply andb_true_iff in H as [Hpat Hpats].
  cbn [should_ignore_loop existsb]. rewrite IH by assumption.
  pose proof Hpat as Hn. unfold name_pattern in Hn.
  rewrite !andb_true_iff, !negb_true_iff in Hn. destruct Hn as [[Hs Hd] _].
  assert (He : Py.endswith "/" pat = false).
  { destruct (Py.endswith "/" pat) eqn:E; [|reflexivity].
    apply endswith_slash_contains in E. congruence. }
  rewrite He, rstrip_no_slash by assumption. cbn [andb].
  unfold double_star. rewrite Hd.
  destruct (fnmatch.fnmatch (os_path.basename p) pat) eqn:Eb.
  - now rewrite orb_true_r.
  - destruct (fnmatch.fnmatch p pat) eqn:Ep; [|reflexivity].
    apply (name_pattern_decided pat p Hpat) in Ep. congruence.
Qed.

(** ** The base name of a normalized path *)

Lemma split_go_slash_single x cur :
  Py.contains "/" x = false -> Py.split_go "/" x 0 cur = [cur ++ x].
Proof.
  intros H. rewrite <- (append_nil_r x) at 1.
  now rewrite split_go_slash_app.
Qed.

Lemma split_go_slash_snoc x s : forall cur,
  Py.contains "/" x = false ->
  Py.split_go "/" (s ++ String "/" x) 0 cur = (Py.split_go "/" s 0 cur ++ [x])%list.
Proof.
  intros cur Hx. revert cur.
  induction s as [|c r IH]; intros cur.
  - change ("" ++ String "/" x) with (String "/" x).
    rewrite split_go_slash_cons. simpl Ascii.eqb. cbv iota.
    now rewrite split_go_slash_single.
  - change (String c r ++ String "/" x) with (String c (r ++ String "/" x)).
    rewrite !split_go_slash_cons.
    destruct (Ascii.eqb c "/"); rewrite IH; reflexivity.
Qed.

Lemma join_snoc sep y ys x :
  Py.join sep ((y :: ys) ++ [x]) = Py.join sep (y :: ys) ++ sep ++ x.
Proof.
  unfold Py.join. revert y.
  induction ys as [|z zs IH]; intros y; [reflexivity|].
  change (String.concat sep ((y :: z :: zs) ++ [x]))
    with (y ++ sep ++ String.concat sep ((z :: zs) ++ [x])).
  rewrite IH.
  change (String.concat sep (y :: z :: zs)) with (y ++ sep ++ String.concat sep (z :: zs)).
  now rewrite !append_assoc.
Qed.

Lemma basename_snoc x pre :
  Py.contains "/" x = false -> os_path.basename (pre ++ String "/" x) = x.
Proof.
  intros Hx. induction pre as [|c r IH].
  - change ("" ++ String "/" x) with (String "/" x).
    cbn [os_path.basename]. now rewrite Hx.
  - change (String c r ++ String "/" x) with (String c (r ++ String "/" x)).
    cbn [os_path.basename].
    rewrite contains_slash_app, contains_slash_cons. simpl Ascii.eqb.
    now rewrite orb_true_r.
Qed.

Lemma repeat_slash_succ k x :
  Py.repeat_str "/" (S k) ++ x = Py.repeat_str "/" k ++ String "/" x.
Proof.
  induction k as [|k IH]; [reflexivity|].
  change (Py.repeat_str "/" (S (S k)) ++ x)
    with (String "/" (Py.repeat_str "/" (S k) ++ x)).
  now rewrite IH.
Qed.

(** What a path with a last component [x] prints as. *)
Lemma str_last_component root ys x :
  root = "" \/ root = "/" \/ root = "//" ->
  x <> "" ->
  pathlib.str (pathlib.mkPath root (ys ++ [x])) = x \/
  exists pre, pathlib.str (pathlib.mkPath root (ys ++ [x])) = pre ++ String "/" x.
Proof.
  intros Hroot Hx. unfold pathlib.str; cbn [pathlib.root pathlib.parts].
  assert (E : root ++ Py.join "/" (ys ++ [x]) = x \/
              exists pre, root ++ Py.join "/" (ys ++ [x]) = pre ++ String "/" x).
  { destruct ys as [|y ys].
    - destruct Hroot as [->|[->| ->]]; simpl.
      + now left.
      + right. now exists "".
      + right. now exists "/".
    - right. rewrite join_snoc. exists (root ++ Py.join "/" (y :: ys)).
      now rewrite append_assoc. }
  destruct E as [E|[pre E]]; rewrite E.
  - left. destruct x; [congruence|reflexivity].
  - right. exists pre. now destruct pre.
Qed.

Lemma normpath_last_component t x :
  valid_name x = true -> x <> ".." ->
  t = x \/ (exists pre, t = pre ++ String "/" x) ->
  os_path.basename (os_path.normpath t) = x.
Proof.
  intros Hv Hdd Ht.
  apply valid_name_iff in Hv as (Hne & Hnd & Hns).
  assert (Hsplit : exists cs, Py.split "/" t = (cs ++ [x])%list).
  { unfold Py.split. destruct Ht as [->|[pre ->]].
    - exists []. now rewrite split_go_slash_single.
    - eexists. now apply split_go_slash_snoc. }
  destruct Hsplit as [cs Hsplit].
  assert (Hnt : Py.is_empty t = false).
  { destruct Ht as [->|[pre ->]]; [destruct x; [congruence|reflexivity]|now destruct pre]. }
  unfold os_path.normpath. rewrite Hnt, Hsplit, fold_left_app. cbn [fold_left].
  assert (E1 : String.eqb x "" = false) by now apply String.eqb_neq.
  assert (E2 : String.eqb x "." = false) by now apply String.eqb_neq.
  assert (E3 : String.eqb x ".." = false) by now apply String.eqb_neq.
  rewrite E1, E2, E3. cbn [orb negb].
  match goal with
  | |- context [Py.join "/" (?l ++ [x])%list] => generalize l
  end.
  match goal with
  | |- context [Py.repeat_str "/" ?k] => generalize k
  end.
  intros k l.
  assert (E : Py.repeat_str "/" k ++ Py.join "/" (l ++ [x])%list = x \/
              exists pre, Py.repeat_str "/" k ++ Py.join "/" (l ++ [x])%list
                          = pre ++ String "/" x).
  { destruct l as [|y ys].
    - destruct k as [|k]; [now left|right].
      exists (Py.repeat_str "/" k). apply repeat_slash_succ.
    - right. rewrite join_snoc. exists (Py.repeat_str "/" k ++ Py.join "/" (y :: ys)).
      now rewrite append_assoc. }
  destruct E as [E|[pre E]]; rewrite E.
  - destruct x as [|c x]; [congruence|]. cbn [Py.is_empty]. now apply basename_no_slash.
  - replace (Py.is_empty (pre ++ String "/" x)) with false by now destruct pre.
    now apply basename_snoc.
Qed.

Lemma basename_normpath_child s x :
  valid_name x = true -> x <> ".." ->
  os_path.basename (os_path.normpath (pathlib.str (pathlib.child (pathlib.of_str s) x))) = x.
Proof.
  intros Hv Hdd. apply normpath_last_component; trivial.
  unfold pathlib.child. apply str_last_component; [apply root_of_str|].
  now apply valid_name_iff in Hv.
Qed.

(** ** Whole-string glob matching *)

Lemma should_ignore_by_name g path is_dir :
  forallb name_pattern (patterns g) = true ->
  should_ignore g path is_dir
  = existsb (fun pat => fnmatch.fnmatch (os_path.basename (os_path.normpath path)) pat)
            (patterns g).
Proof. intros H. unfold should_ignore. now apply should_ignore_loop_by_name. Qed.

Lemma enumerate_from_in_exists {A : Type} (a : A) l : forall k,
  In a l -> exists i, In (i, a) (Py.enumerate_from k l).
Proof.
  induction l as [|x l IH]; intros k; [intros []|].
  intros [->|H].
  - exists k. now left.
  - destruct (IH (S k) H) as [i Hi]. exists i. now right.
Qed.

(** A surviving entry of a listed directory gets its line. *)
Lemma surviving_entry_printed entries siblings directory level prefix g0 g x m :
  wf (Dir true entries) = true ->
  parser_of (Dir true entries) directory level g0 = Done g ->
  should_ignore g (pathlib.str (pathlib.of_str directory)) true = false ->
  In (x, m) entries ->
  should_ignore g (pathlib.str (pathlib.child (pathlib.of_str directory) x))
                (fs.is_dir m) = false ->
  exists i,
    In (child_line (pathlib.of_str directory) level prefix
                   (List.length (surviving g (pathlib.of_str directory) entries))
                   (i, (x, m)))
       (fst (tree (Dir true entries) siblings directory level prefix g0)).
Proof.
  intros Hwf Hg Hi Hin Hs.
  assert (Hk : In (x, m) (surviving g (pathlib.of_str directory) entries))
    by now apply surviving_in.
  destruct (enumerate_from_in_exists _ _ 0 Hk) as [i Hie].
  exists i. rewrite tree_lines, Hg. cbn [fs.is_dir fst]. rewrite Hi. right.
  pose proof (children_lines_level g directory entries level prefix Hwf) as E.
  apply (in_map (child_line (pathlib.of_str directory) level prefix
                   (List.length (surviving g (pathlib.of_str directory) entries)))) in Hie.
  unfold Py.enumerate in E. rewrite <- E in Hie.
  now apply filter_In in Hie.
Qed.

(** C6: a pattern matches when [fnmatch] matches it, as a whole-string
    glob, against the normalized path or against its base name (the
    star runs over separators); so, when [*.log] is the one pattern the
    [.gitignore] contributes, an entry named [x.log] is ignored and no
    line is printed for it, while an entry named [x.logger] is not
    ignored and, in a root directory that is listed, gets its line. *)
Theorem C6_glob_matching root directory f g :
  wf root = true ->
  fs.lookup root ".gitignore" = File (Some f) ->
  gitignore_patterns_spec (fs.lines f) = ["*.log"] ->
  load_gitignore GitignoreParser_init root directory = Done g ->
  (forall h path is_dir pattern,
     In pattern (patterns h) ->
     Py.endswith "/" pattern && negb is_dir = false ->
     fnmatch.fnmatch (os_path.normpath path) (Py.rstrip_char "/" pattern)
     || fnmatch.fnmatch (os_path.basename (os_path.normpath path))
                        (Py.rstrip_char "/" pattern) = true ->
     should_ignore h path is_dir = true) /\
  fnmatch.fnmatch "logs/today/x.log" "*.log" = true /\
  (forall path is_dir,
     os_path.basename (os_path.normpath path) = "x.log" ->
     should_ignore g path is_dir = true) /\
  (forall siblings prefix g0 pr,
     In pr (fst (tree root siblings directory 0 prefix g0)) ->
     os_path.basename (os_path.normpath (at_path pr)) <> "x.log") /\
  (forall path is_dir,
     os_path.basename (os_path.normpath path) = "x.logger" ->
     should_ignore g path is_dir = false) /\
  (forall entries m siblings prefix g0,
     fs.iterdir root = Done entries ->
     should_ignore g (pathlib.str (pathlib.of_str directory)) true = false ->
     In ("x.logger", m) entries ->
     In (mkPrinted (pathlib.str (pathlib.child (pathlib.of_str directory) "x.logger")) 1
                   (blank_indent ++ mid_connector ++ "x.logger"))
        (fst (tree root siblings directory 0 prefix g0))).
Proof.
  intros Hwf Hlook Hspec Hg.
  assert (Hp : patterns g = (default_patterns GitignoreParser_init ++ ["*.log"])%list).
  { rewrite load_gitignore_cases, Hlook, Hspec in Hg. now inversion Hg. }
  assert (Hnp : forallb name_pattern (patterns g) = true) by now rewrite Hp.
  assert (Hlog : forall path is_dir,
             os_path.basename (os_path.normpath path) = "x.log" ->
             should_ignore g path is_dir = true).
  { intros path is_dir Hb. rewrite should_ignore_by_name, Hb, Hp by assumption.
    reflexivity. }
  assert (Hlogger : forall path is_dir,
             os_path.basename (os_path.normpath path) = "x.logger" ->
             should_ignore g path is_dir = false).
  { intros path is_dir Hb. rewrite should_ignore_by_name, Hb, Hp by assumption.
    reflexivity. }
  repeat split; trivial.
  - intros h path is_dir pattern Hin Hskip Hm. unfold should_ignore.
    apply should_ignore_loop_match with (pattern := pattern); trivial.
    now rewrite Hm.
  - intros siblings prefix g0 pr Hpr Hb.
    apply (tree_printed_kept root (pathlib.of_str directory) g root Hwf) in Hpr;
      [|exact Hg|apply kept_root].
    destruct Hpr as (m & q & Hk & Hq). apply kept_not_ignored in Hk.
    rewrite Hq in Hb. rewrite (Hlog _ _ Hb) in Hk. discriminate.
  - intros entries m siblings prefix g0 Hl Hi Hin.
    destruct root as [|c|[|] es]; try discriminate. inversion Hl; subst es.
    destruct (surviving_entry_printed entries siblings directory 0 prefix g0 g
                "x.logger" m Hwf Hg Hi Hin) as [i Hline]; [|exact Hline].
    apply Hlogger. apply basename_normpath_child; [reflexivity|discriminate].
Qed.

(** [x.logger] is printed next to an ignored [x.log]. *)
Lemma C6_glob_matching_witness :
  let root := Dir true [(".gitignore", File (Some "*.log")); ("x.log", File (Some ""));
                        ("x.logger", File (Some ""))] in
  In (mkPrinted "proj/x.logger" 1 "    ├── x.logger")
     (fst (tree root [] "proj" 0 "" GitignoreParser_init)).
Proof.
  exact (proj2 (proj2 (proj2 (proj2 (proj2
    (C6_glob_matching
       (Dir true [(".gitignore", File (Some "*.log")); ("x.log", File (Some ""));
                  ("x.logger", File (Some ""))])
       "proj" "*.log"
       (mkParser (default_patterns GitignoreParser_init ++ ["*.log"])%list
                 (default_patterns GitignoreParser_init))
       eq_refl eq_refl eq_refl eq_refl)))))
    [(".gitignore", File (Some "*.log")); ("x.log", File (Some ""));
     ("x.logger", File (Some ""))]
    (File (Some "")) [] "" GitignoreParser_init eq_refl eq_refl
    (or_intror (or_intror (or_introl eq_refl)))).
Defined.

(** ** A root that does not exist *)

Lemma default_patterns_by_name :
  forallb name_pattern (default_patterns GitignoreParser_init) = true.
Proof. reflexivity. Qed.






(* ================================================================= *)
(** * Further properties of the code *)

(** ** The pattern loop as a disjunction *)

Lemma should_ignore_loop_app pats1 pats2 path name is_dir :
  should_ignore_loop (pats1 ++ pats2) path name is_dir
  = should_ignore_loop pats1 path name is_dir || should_ignore_loop pats2 path name is_dir.
Proof.
  induction pats1 as [|q pats1 IH]; [reflexivity|].
  cbn [should_ignore_loop app].
  destruct (Py.endswith "/" q && negb is_dir); [exact IH|].
  destruct (fnmatch.fnmatch path (Py.rstrip_char "/" q)
            || fnmatch.fnmatch name (Py.rstrip_char "/" q)); [reflexivity|].
  destruct (double_star path (Py.rstrip_char "/" q)); [reflexivity|exact IH].
Qed.

Lemma should_ignore_loop_true pats path name is_dir :
  should_ignore_loop pats path name is_dir = true ->
  exists pattern,
    In pattern pats /\
    Py.endswith "/" pattern && negb is_dir = false /\
    (fnmatch.fnmatch path (Py.rstrip_char "/" pattern)
     || fnmatch.fnmatch name (Py.rstrip_char "/" pattern)
     || double_star path (Py.rstrip_char "/" pattern)) = true.
Proof.
  induction pats as [|q pats IH]; [discriminate|].
  cbn [should_ignore_loop].
  destruct (Py.endswith "/" q && negb is_dir) eqn:Hskip.
  - intros H. destruct (IH H) as (p & Hin & Hp). exists p. split; [now right|exact Hp].
  - destruct (fnmatch.fnmatch path (Py.rstrip_char "/" q)
              || fnmatch.fnmatch name (Py.rstrip_char "/" q)) eqn:Hm.
    + intros _. exists q. repeat split; [now left|exact Hskip|now rewrite Hm].
    + destruct (double_star path (Py.rstrip_char "/" q)) eqn:Hd.
      * intros _. exists q. repeat split; [now left|exact Hskip|].
        rewrite Hd. apply orb_true_r.
      * intros H. destruct (IH H) as (p & Hin & Hp). exists p. split; [now right|exact Hp].
Qed.

Lemma should_ignore_incl g g' path is_dir :
  (forall pattern, In pattern (patterns g) -> In pattern (patterns g')) ->
  should_ignore g path is_dir = true ->
  should_ignore g' path is_dir = true.
Proof.
  unfold should_ignore. intros Hincl H.
  apply should_ignore_loop_true in H as (p & Hin & Hskip & Hm).
  apply should_ignore_loop_match with (pattern := p); auto.
Qed.

(** X2: the answer of [should_ignore] only grows with the patterns: a
    path ignored under some patterns is ignored under any parser that
    holds them all, in whatever order and however often (no pattern
    takes back what another one matched). *)
Theorem should_ignore_monotone g g' path is_dir :
  (forall pattern, In pattern (patterns g) -> In pattern (patterns g')) ->
  should_ignore g path is_dir = true ->
  should_ignore g' path is_dir = true.
Proof.
  unfold should_ignore. intros Hincl H.
  destruct (should_ignore_loop_true _ _ _ _ H) as (p & Hin & Hskip & Hm).
  apply should_ignore_loop_match with (pattern := p); trivial.
  now apply Hincl.
Qed.

(** A path ignored for [*.log] stays ignored when patterns are added
    around it. *)
Lemma should_ignore_monotone_witness :
  should_ignore (mkParser ["!debug.log"; "*.log"; "*.log"; "tmp"] []) "out/debug.log" false
  = true.
Proof.
  apply (should_ignore_monotone (mkParser ["*.log"] [])
           (mkParser ["!debug.log"; "*.log"; "*.log"; "tmp"] []) "out/debug.log" false).
  - intros pattern [<-|[]]. simpl. auto.
  - reflexivity.
Defined.

(** ** Stored patterns and the directory flag *)

Lemma lstrip_by_no_leading c s :
  Py.startswith (String c "") (Py.lstrip_by (Py.is_char c) s) = false.
Proof.
  induction s as [|a s IH]; [reflexivity|].
  cbn [Py.lstrip_by]. unfold Py.is_char at 1.
  destruct (Ascii.eqb a c) eqn:E; [exact IH|].
  now rewrite startswith_char_cons.
Qed.

Lemma rstrip_by_head p s c r :
  Py.rstrip_by p s = String c r -> exists r', s = String c r'.
Proof.
  destruct s as [|a s]; [discriminate|].
  cbn [Py.rstrip_by].
  destruct (Py.is_empty (Py.rstrip_by p s) && p a); [discriminate|].
  intros H. inversion H. eauto.
Qed.

Lemma strip_char_no_leading c s :
  Py.startswith (String c "") (Py.strip_char c s) = false.
Proof.
  unfold Py.strip_char, Py.strip_by.
  pose proof (lstrip_by_no_leading c s) as H.
  destruct (Py.rstrip_by (Py.is_char c) (Py.lstrip_by (Py.is_char c) s)) as [|a r] eqn:E;
    [reflexivity|].
  apply rstrip_by_head in E as [r' E]. rewrite E in H.
  now rewrite startswith_char_cons in *.
Qed.

Lemma should_ignore_loop_flag pats path name :
  (forall pattern, In pattern pats -> Py.endswith "/" pattern = false) ->
  should_ignore_loop pats path name true = should_ignore_loop pats path name false.
Proof.
  induction pats as [|q pats IH]; intros H; [reflexivity|].
  cbn [should_ignore_loop]. rewrite (H q (or_introl eq_refl)). cbn [andb].
  rewrite IH by (intros p Hp; apply H; now right). reflexivity.
Qed.

(** X1: whatever the [.gitignore] holds, no pattern it contributes
    starts or ends with a slash once loaded, and the answer of
    [should_ignore] under the loaded parser is the same for a directory
    and for any other entry. *)
Theorem loaded_parser_ignores_flag dir directory g :
  load_gitignore GitignoreParser_init dir directory = Done g ->
  (forall pattern,
     In pattern (patterns g) ->
     Py.startswith "/" pattern = false /\ Py.endswith "/" pattern = false) /\
  (forall path, should_ignore g path true = should_ignore g path false).
Proof.
  intros Hg. split.
  - intros pattern Hin. split; [|now apply (loaded_patterns_no_trailing_slash _ _ _ _ Hg)].
    rewrite load_gitignore_cases in Hg.
    destruct (fs.lookup dir ".gitignore") as [|[f|]|r es]; inversion Hg; subst;
      cbn [patterns] in Hin.
    + repeat (destruct Hin as [<-|Hin]; [reflexivity|]). destruct Hin.
    + repeat (destruct Hin as [<-|Hin]; [reflexivity|]).
      unfold gitignore_patterns_spec in Hin. apply in_map_iff in Hin as (l & <- & _).
      apply strip_char_no_leading.
  - intros path. unfold should_ignore. apply should_ignore_loop_flag.
    intros pattern. apply (loaded_patterns_no_trailing_slash _ _ _ _ Hg).
Qed.

(** Lines written as anchored or directory-only patterns. *)
Lemma loaded_parser_ignores_flag_witness :
  let dir := Dir true [(".gitignore", File (Some "/out/"))] in
  should_ignore (mkParser (default_patterns GitignoreParser_init ++ ["out"])%list
                          (default_patterns GitignoreParser_init)) "proj/out" true
  = should_ignore (mkParser (default_patterns GitignoreParser_init ++ ["out"])%list
                            (default_patterns GitignoreParser_init)) "proj/out" false.
Proof.
  exact (proj2 (loaded_parser_ignores_flag
                  (Dir true [(".gitignore", File (Some "/out/"))]) "proj"
                  (mkParser (default_patterns GitignoreParser_init ++ ["out"])%list
                            (default_patterns GitignoreParser_init))
                  eq_refl) "proj/out").
Defined.

(** ** The default patterns *)

Lemma default_filter_test path is_dir :
  should_ignore (mkParser (default_patterns GitignoreParser_init)
                          (default_patterns GitignoreParser_init)) path is_dir
  = default_name_test (os_path.basename (os_path.normpath path)).
Proof.
  rewrite should_ignore_by_name by apply default_patterns_by_name.
  cbn [patterns default_patterns GitignoreParser_init existsb]. unfold default_name_test.
  rewrite fnmatch_star_plain by reflexivity.
  rewrite !fnmatch_plain by reflexivity.
  now rewrite orb_false_r, !orb_assoc.
Qed.

(** X3: an entry whose normalized base name is one of the nine default
    names, or ends with [.pyc], is ignored whatever the [.gitignore]
    adds; and when there is no [.gitignore], these are the only entries
    that are ignored. *)
Theorem default_patterns_always_apply dir directory g path is_dir :
  load_gitignore GitignoreParser_init dir directory = Done g ->
  (default_name_test (os_path.basename (os_path.normpath path)) = true ->
   should_ignore g path is_dir = true) /\
  (fs.lookup dir ".gitignore" = Absent ->
   should_ignore g path is_dir
   = default_name_test (os_path.basename (os_path.normpath path))).
Proof.
  intros Hg. split.
  - intros Hn. rewrite <- (default_filter_test path is_dir) in Hn.
    apply (should_ignore_incl _ g _ _) in Hn; [exact Hn|].
    cbn [patterns]. intros p Hp.
    apply load_gitignore_patterns in Hg as [extra ->]. apply in_or_app. now left.
  - intros Habs. rewrite load_gitignore_cases, Habs in Hg. inversion Hg; subst.
    apply default_filter_test.
Qed.

(** A compiled Python file is ignored although the [.gitignore] lists
    other things. *)
Lemma default_patterns_always_apply_witness :
  should_ignore (mkParser (default_patterns GitignoreParser_init ++ ["*.log"; "tmp"])%list
                          (default_patterns GitignoreParser_init))
                "src/pkg/mod.pyc" false = true.
Proof.
  apply (proj1 (default_patterns_always_apply
                  (Dir true [(".gitignore", File (Some ("*.log" ++ String "010" "tmp/")))])
                  "src"
                  (mkParser (default_patterns GitignoreParser_init ++ ["*.log"; "tmp"])%list
                            (default_patterns GitignoreParser_init))
                  "src/pkg/mod.pyc" false eq_refl)).
  reflexivity.
Defined.

(** ** Loading again *)

(** X4: [load_gitignore] starts from the default patterns each time:
    what the parser held before is dropped, the defaults are kept as
    they were, and loading again from an unchanged directory gives the
    same parser (patterns do not pile up). *)
Theorem load_gitignore_reload self dir directory g :
  load_gitignore self dir directory = Done g ->
  default_patterns g = default_patterns self /\
  load_gitignore g dir directory = Done g /\
  (forall leftover,
     load_gitignore (mkParser leftover (default_patterns self)) dir directory = Done g).
Proof.
  intros H. rewrite load_gitignore_cases in H.
  assert (D : default_patterns g = default_patterns self)
    by (destruct (fs.lookup dir ".gitignore") as [|[f|]|r es]; inversion H; reflexivity).
  split; [exact D|]. split.
  - now rewrite load_gitignore_cases, D.
  - intros leftover. now rewrite load_gitignore_cases.
Qed.

(** A parser that already holds patterns of an earlier load. *)
Lemma load_gitignore_reload_witness :
  let dir := Dir true [(".gitignore", File (Some "*.log"))] in
  load_gitignore (mkParser ["stale"; "*.tmp"] (default_patterns GitignoreParser_init))
                 dir "proj"
  = Done (mkParser (default_patterns GitignoreParser_init ++ ["*.log"])%list
                   (default_patterns GitignoreParser_init)).
Proof.
  exact (proj2 (proj2 (load_gitignore_reload GitignoreParser_init
                         (Dir true [(".gitignore", File (Some "*.log"))]) "proj"
                         (mkParser (default_patterns GitignoreParser_init ++ ["*.log"])%list
                                   (default_patterns GitignoreParser_init))
                         eq_refl)) ["stale"; "*.tmp"]).
Defined.

(** ** Every entry that is kept gets its line *)

Lemma kept_wf g root top n p :
  wf root = true -> kept g root top n p -> wf n = true.
Proof.
  intros Hwf. induction 1 as [|entries p x m _ IH Hin _]; [assumption|].
  now destruct (wf_entry _ _ _ _ IH Hin).
Qed.

Lemma children_lines_incl g path entries level prefix x m :
  In (x, m) entries ->
  should_ignore g (pathlib.str (pathlib.child path x)) (fs.is_dir m) = false ->
  exists i,
    forall pr,
      In pr (fst (tree m entries (pathlib.str (pathlib.child path x)) (level + 1)
                       (new_prefix level prefix i (List.length (surviving g path entries)))
                       g)) ->
      In pr (children_lines g path entries level prefix).
Proof.
  intros Hin Hs.
  assert (Hk : In (x, m) (surviving g path entries)) by now apply surviving_in.
  destruct (enumerate_from_in_exists _ _ 0 Hk) as [i Hie].
  exists i. intros pr Hpr. unfold children_lines. apply in_flat_map.
  exists (i, (x, m)). split; [exact Hie|exact Hpr].
Qed.

(** The call that reaches a kept entry, and where its lines end up. *)
Lemma kept_call g root directory siblings prefix g0 n p :
  wf root = true ->
  load_gitignore GitignoreParser_init root directory = Done g ->
  kept g root (pathlib.of_str directory) n p ->
  exists siblings' d level prefix' g0',
    pathlib.of_str d = p /\
    parser_of n d level g0' = Done g /\
    forall pr,
      In pr (fst (tree n siblings' d level prefix' g0')) ->
      In pr (fst (tree root siblings directory 0 prefix g0)).
Proof.
  intros Hwf Hg Hk.
  induction Hk as [Hroot|entries p x m Hk IH Hin Hs].
  - exists siblings, directory, 0, prefix, g0. repeat split; trivial.
  - destruct IH as (sib & d & level & prefix' & g0' & Hd & Hp & Hincl).
    pose proof (kept_wf _ _ _ _ _ Hwf Hk) as Hwfd.
    destruct (wf_entry _ _ _ _ Hwfd Hin) as [Hx _].
    subst p.
    destruct (children_lines_incl g (pathlib.of_str d) entries level prefix' x m Hin Hs)
      as [i Hi].
    eexists entries, (pathlib.str (pathlib.child (pathlib.of_str d) x)), (level + 1), _, g.
    split; [now apply of_str_str_child|].
    split; [apply parser_of_below|].
    intros pr Hpr. apply Hincl.
    pose proof (kept_not_ignored _ _ _ _ _ Hk) as Hni.
    rewrite tree_lines, Hp, Hni. cbn [fst]. right. apply Hi. exact Hpr.
Qed.

(** X6: every entry that the walk keeps (reached from the root through
    directories that are listed and not ignored, and not ignored
    itself) gets a line, and the line ends with its name: with C5, the
    lines printed are those of the kept entries and no others. *)
Theorem kept_entries_printed root directory g siblings prefix g0 n p :
  wf root = true ->
  load_gitignore GitignoreParser_init root directory = Done g ->
  kept g root (pathlib.of_str directory) n p ->
  exists pr lead,
    In pr (fst (tree root siblings directory 0 prefix g0)) /\
    at_path pr = pathlib.str p /\
    text pr = lead ++ pathlib.name p.
Proof.
  intros Hwf Hg Hk.
  destruct (kept_call g root directory siblings prefix g0 n p Hwf Hg Hk)
    as (sib & d & level & prefix' & g0' & Hd & Hp & Hincl).
  subst p.
  exists (own_line sib d level prefix').
  exists (if Nat.eqb level 0 then ""
          else prefix' ++ match sib with [] => end_connector | _ :: _ => mid_connector end).
  split; [|split].
  - apply Hincl. rewrite tree_lines, Hp. cbn [fst].
    rewrite (kept_not_ignored _ _ _ _ _ Hk). now left.
  - reflexivity.
  - unfold own_line; cbn [text]. destruct (Nat.eqb level 0); [reflexivity|].
    now rewrite append_assoc.
Qed.

(** A file two levels down, below a directory that is kept. *)
Lemma kept_entries_printed_witness :
  let root := Dir true [("src", Dir true [("a.py", File (Some ""))])] in
  exists pr lead,
    In pr (fst (tree root [] "proj" 0 "" GitignoreParser_init)) /\
    at_path pr = "proj/src/a.py" /\
    text pr = lead ++ "a.py".
Proof.
  apply (kept_entries_printed
           (Dir true [("src", Dir true [("a.py", File (Some ""))])]) "proj"
           (mkParser (default_patterns GitignoreParser_init)
                     (default_patterns GitignoreParser_init))
           [] "" GitignoreParser_init
           (File (Some ""))
           (pathlib.child (pathlib.child (pathlib.of_str "proj") "src") "a.py")
           eq_refl eq_refl).
  apply (kept_child _ _ _ [("a.py", File (Some ""))]); [|now left|reflexivity].
  apply (kept_child _ _ _ [("src", Dir true [("a.py", File (Some ""))])]);
    [|now left|reflexivity].
  apply kept_root. reflexivity.
Defined.

(** ** The shape of a line *)

Lemma of_str_str_idem s :
  pathlib.of_str (pathlib.str (pathlib.of_str s)) = pathlib.of_str s.
Proof.
  pose proof (root_of_str s) as Hroot.
  pose proof (parts_of_str_valid s) as Hvalid.
  destruct (pathlib.of_str s) as [root [|x xs]]; cbn [pathlib.root pathlib.parts] in *.
  - destruct Hroot as [->|[->| ->]]; reflexivity.
  - now apply of_str_str.
Qed.

Lemma new_prefix_unit level prefix i len :
  exists u,
    new_prefix level prefix i len = base_prefix level prefix ++ u /\
    indent_unit u /\ (level = 0 -> u = blank_indent).
Proof.
  unfold new_prefix, base_prefix, indent_unit.
  destruct (Nat.eqb_spec level 0) as [->|Hl].
  - exists blank_indent. auto.
  - destruct (Nat.eqb i (len - 1)); eexists; repeat split; eauto; contradiction.
Qed.

Lemma concat_units_cons u us :
  String.concat "" (u :: us) = u ++ String.concat "" us.
Proof. destruct us; simpl; [now rewrite append_nil_r|reflexivity]. Qed.

Lemma tree_line_format n : forall siblings d level prefix g0 pr,
  (level <> 0 -> siblings <> []) ->
  In pr (fst (tree n siblings d level prefix g0)) ->
  pr = own_line siblings d level prefix \/
  exists us,
    us <> [] /\ Forall indent_unit us /\
    (level = 0 -> hd "" us = blank_indent) /\
    List.length us = depth pr - level /\
    text pr = base_prefix level prefix ++ String.concat "" us ++ mid_connector
              ++ pathlib.name (pathlib.of_str (at_path pr)).
Proof.
  induction n as [|content|readable entries IH] using node_induction;
    intros siblings d level prefix g0 pr Hsib; rewrite tree_lines;
    (destruct (parser_of _ d level g0) as [g|e]; [|intros []]); cbn [fst];
    (destruct (should_ignore _ _ _); [intros []|]).
  1-2: intros [<-|[]]; now left.
  intros [<-|Hpr]; [now left|right].
  destruct readable; [|destruct Hpr].
  apply children_lines_in in Hpr as (i & x & m & Hin & _ & Hpr).
  pose proof (tree_depth_ge _ _ _ _ _ _ _ Hpr) as Hdepth.
  rewrite Forall_forall in IH.
  apply (IH (x, m) Hin) in Hpr; [|intros _ ->; destruct Hin].
  destruct (new_prefix_unit level prefix i
              (List.length (surviving g (pathlib.of_str d) entries)))
    as (u & Hu & Hunit & Hfirst).
  rewrite Hu in Hpr.
  destruct Hpr as [->|(us & Hne & Hall & _ & Hlen & Htext)].
  - exists [u]. repeat split; trivial.
    + discriminate.
    + now constructor.
    + unfold own_line; cbn [depth]. simpl List.length. lia.
    + unfold own_line; cbn [text at_path]. rewrite of_str_str_idem.
      rewrite Nat.add_1_r. cbn [Nat.eqb].
      destruct entries; [destruct Hin|].
      cbn [String.concat]. now rewrite !append_assoc.
  - exists (u :: us). repeat split; trivial.
    + discriminate.
    + now constructor.
    + cbn [List.length]. lia.
    + rewrite Htext. unfold base_prefix at 1. rewrite Nat.add_1_r. cbn [Nat.eqb].
      rewrite concat_units_cons. now rewrite !append_assoc.
Qed.

(** X7: the first line of a run is the bare name of the root; every
    other line is, for an entry on level [d], [d] steps of indentation
    (the first of them always four blanks, the others four blanks or a
    bar and three blanks), the connector of a middle entry, and the
    name of the entry.  The connector of a last entry is never used. *)
Theorem line_format n siblings directory prefix g0 pr :
  In pr (fst (tree n siblings directory 0 prefix g0)) ->
  (depth pr = 0 /\ text pr = pathlib.name (pathlib.of_str directory)) \/
  (exists us,
     List.length us = depth pr /\ hd "" us = blank_indent /\ Forall indent_unit us /\
     text pr = String.concat "" us ++ mid_connector
               ++ pathlib.name (pathlib.of_str (at_path pr))).
Proof.
  intros Hpr. apply tree_line_format in Hpr; [|intros H; now contradiction H].
  destruct Hpr as [->|(us & _ & Hall & Hfirst & Hlen & Htext)].
  - left. split; reflexivity.
  - right. exists us. rewrite Nat.sub_0_r in Hlen. auto.
Qed.

(** The line of a file two levels down that is not the last of its
    directory. *)
Lemma line_format_witness :
  let root := Dir true [("src", Dir true [("a.py", File (Some "")); ("b.py", File None)])] in
  let pr := mkPrinted "proj/src/a.py" 2 "    │   ├── a.py" in
  (depth pr = 0 /\ text pr = "proj") \/
  (exists us,
     List.length us = 2 /\ hd "" us = blank_indent /\ Forall indent_unit us /\
     text pr = String.concat "" us ++ mid_connector ++ "a.py").
Proof.
  apply (line_format
           (Dir true [("src", Dir true [("a.py", File (Some "")); ("b.py", File None)])])
           [] "proj" "" GitignoreParser_init
           (mkPrinted "proj/src/a.py" 2 "    │   ├── a.py")).
  vm_compute. right. right. left. reflexivity.
Defined.

(** ** The order in which a directory is enumerated *)

Lemma key_le_antisym k1 k2 :
  key_le k1 k2 = true -> key_le k2 k1 = true -> k1 = k2.
Proof.
  destruct k1 as [[|] s1], k2 as [[|] s2]; unfold key_le; simpl; try discriminate;
    intros H1 H2; f_equal; now apply String.leb_antisym.
Qed.

Lemma nodup_map_in_eq {A K : Type} (key : A -> K) l a b :
  NoDup (map key l) -> In a l -> In b l -> key a = key b -> a = b.
Proof.
  induction l as [|x l IH]; [intros _ []|].
  cbn [map]. intros Hnd Ha Hb Hk. inversion Hnd as [|? ? Hx Hl]; subst.
  destruct Ha as [->|Ha], Hb as [->|Hb]; trivial.
  - exfalso. apply Hx. rewrite Hk. now apply in_map.
  - exfalso. apply Hx. rewrite <- Hk. now apply in_map.
  - now apply IH.
Qed.

Lemma strongly_sorted_unique {A : Type} (key : A -> bool * string) l : forall l',
  StronglySorted (le_by_key key) l ->
  StronglySorted (le_by_key key) l' ->
  Permutation l l' ->
  NoDup (map key l) ->
  l = l'.
Proof.
  induction l as [|a t IH]; intros l' Hs Hs' Hp Hnd.
  - now apply Permutation_nil in Hp.
  - destruct l' as [|b t']; [apply Permutation_sym, Permutation_nil in Hp; discriminate|].
    inversion Hs as [|? ? Hst Ha]; subst. inversion Hs' as [|? ? Hst' Hb]; subst.
    rewrite Forall_forall in Ha, Hb.
    assert (Hab : a = b).
    { assert (Hina : In a (b :: t')) by (eapply Permutation_in; [exact Hp|now left]).
      assert (Hinb : In b (a :: t))
        by (eapply Permutation_in; [apply Permutation_sym; exact Hp|now left]).
      destruct Hina as [->|Hina]; [reflexivity|].
      destruct Hinb as [->|Hinb]; [reflexivity|].
      apply (nodup_map_in_eq key (a :: t)); trivial; [now left|now right|].
      apply key_le_antisym; [now apply Ha|now apply Hb]. }
    subst b. f_equal. apply IH; trivial.
    + now apply Permutation_cons_inv in Hp.
    + cbn [map] in Hnd. now inversion Hnd.
Qed.

Lemma sorted_entries_unique entries entries' :
  Permutation entries entries' ->
  NoDup (map entry_key entries) ->
  Py.sorted key_le entry_key entries = Py.sorted key_le entry_key entries'.
Proof.
  intros Hp Hnd. apply (strongly_sorted_unique entry_key).
  - apply sorted_strongly_sorted.
  - apply sorted_strongly_sorted.
  - rewrite (sorted_perm key_le entry_key entries), (sorted_perm key_le entry_key entries').
    exact Hp.
  - eapply Permutation_NoDup; [|exact Hnd].
    apply Permutation_map, Permutation_sym, sorted_perm.
Qed.

(** The listing of the parent matters only through being empty or not. *)
Lemma tree_siblings n siblings siblings' d level prefix g0 :
  siblings <> [] -> siblings' <> [] ->
  tree n siblings d level prefix g0 = tree n siblings' d level prefix g0.
Proof.
  intros H H'. rewrite !tree_lines. unfold own_line.
  destruct siblings; [congruence|]. destruct siblings'; [congruence|]. reflexivity.
Qed.

(** X9: when no two entries of a directory have the same kind and the
    same lower-cased name, the order in which the operating system
    enumerates the directory is immaterial: the surviving entries come
    out in the same order, and a call on the directory prints the same
    lines (on level 0, provided both enumerations find the same
    [.gitignore]). *)
Theorem enumeration_order_irrelevant entries entries' :
  Permutation entries entries' ->
  NoDup (map entry_key entries) ->
  (forall g p, surviving g p entries = surviving g p entries') /\
  (forall siblings d level prefix g0,
     (level = 0 -> fs.find ".gitignore" entries = fs.find ".gitignore" entries') ->
     tree (Dir true entries) siblings d level prefix g0
     = tree (Dir true entries') siblings d level prefix g0).
Proof.
  intros Hp Hnd.
  assert (Hs : forall g p, surviving g p entries = surviving g p entries')
    by (intros g p; unfold surviving; now rewrite (sorted_entries_unique _ _ Hp Hnd)).
  split; [exact Hs|].
  intros siblings d level prefix g0 Hfind. rewrite !tree_lines.
  assert (Hparser : parser_of (Dir true entries) d level g0
                    = parser_of (Dir true entries') d level g0).
  { unfold parser_of. destruct (Nat.eqb_spec level 0) as [Hl|_]; [|reflexivity].
    rewrite !load_gitignore_cases. cbn [fs.lookup]. now rewrite (Hfind Hl). }
  rewrite Hparser.
  destruct (parser_of (Dir true entries') d level g0) as [g|e]; [|reflexivity].
  cbn [fs.is_dir]. destruct (should_ignore _ _ _); [reflexivity|].
  do 2 f_equal. unfold children_lines. rewrite <- Hs.
  apply flat_map_ext. intros [i [x m]]. cbn [fst snd].
  destruct entries as [|e0 es].
  - apply Permutation_nil in Hp. now subst.
  - f_equal. apply tree_siblings; [discriminate|].
    intros ->. apply Permutation_sym, Permutation_nil in Hp. discriminate.
Qed.

(** Two enumerations of the same three entries. *)
Lemma enumeration_order_irrelevant_witness :
  tree (Dir true [("b.txt", File None); ("a", Dir true []); ("A.txt", File None)])
       [] "proj" 0 "" GitignoreParser_init
  = tree (Dir true [("A.txt", File None); ("a", Dir true []); ("b.txt", File None)])
         [] "proj" 0 "" GitignoreParser_init.
Proof.
  apply (proj2 (enumeration_order_irrelevant
                  [("b.txt", File None); ("a", Dir true []); ("A.txt", File None)]
                  [("A.txt", File None); ("a", Dir true []); ("b.txt", File None)]
                  (perm_trans (perm_swap _ _ _)
                              (perm_trans (perm_skip _ (perm_swap _ _ _)) (perm_swap _ _ _)))
                  ltac:(vm_compute; repeat constructor; simpl; intuition discriminate))).
  reflexivity.
Defined.

(** ** The levels of successive lines *)

Lemma last_cons_any {A : Type} (a : list A) : forall x y z,
  last (x :: a) y = last (x :: a) z.
Proof.
  induction a as [|w a IH]; intros x y z; [reflexivity|].
  change (last (w :: a) y = last (w :: a) z). apply IH.
Qed.

Lemma steps_by_one_app a : forall prev b,
  steps_by_one prev a -> steps_by_one (last a prev) b -> steps_by_one prev (a ++ b).
Proof.
  induction a as [|d a IH]; intros prev b Ha Hb; [exact Hb|].
  destruct Ha as [Hd Ha]. split; [exact Hd|].
  apply IH; [exact Ha|].
  destruct a as [|d' a]; [exact Hb|].
  rewrite (last_cons_any a d' d prev).
  exact Hb.
Qed.

Lemma last_lower_bound (level : nat) a : forall prev,
  level <= prev -> Forall (fun d => level <= d) a -> level <= last a prev.
Proof.
  induction a as [|d a IH]; intros prev Hp Ha; [exact Hp|].
  inversion Ha as [|? ? Hd Ha']; subst.
  destruct a as [|d' a]; [exact Hd|].
  change (level <= last (d' :: a) prev). now apply IH.
Qed.

Lemma steps_by_one_blocks level (blocks : list (list nat)) :
  Forall (fun b => b = [] \/
                   exists ds, b = S level :: ds /\ Forall (lt (S level)) ds /\
                              steps_by_one (S level) ds) blocks ->
  Forall (lt level) (List.concat blocks) /\
  forall prev, level <= prev -> steps_by_one prev (List.concat blocks).
Proof.
  induction 1 as [|b blocks Hb _ [IHall IHsteps]]; cbn [List.concat].
  - split; [constructor|intros; exact I].
  - destruct Hb as [->|(ds & -> & Hds & Hsteps)]; [now split|].
    assert (Hge : Forall (fun d => level <= d) (S level :: ds)).
    { constructor; [lia|]. eapply Forall_impl; [|exact Hds]. intros; simpl in *; lia. }
    split.
    + apply Forall_app. split; [|exact IHall].
      constructor; [lia|]. eapply Forall_impl; [|exact Hds]. intros; simpl in *; lia.
    + intros prev Hprev. apply steps_by_one_app.
      * split; [lia|exact Hsteps].
      * apply IHsteps. now apply last_lower_bound.
Qed.

(** X8: the lines come in pre-order: when a call on level [level]
    prints anything, its first line is that of its own entry, on that
    level, every other line is on a deeper level, and from one line to
    the next the level goes up by one at most (an entry is never
    printed without the line of its directory somewhere before it, one
    level up).  For a run, [level] is 0 and the first line is the
    root's. *)
Theorem lines_in_preorder n : forall siblings d level prefix g0,
  map depth (fst (tree n siblings d level prefix g0)) = [] \/
  exists ds,
    map depth (fst (tree n siblings d level prefix g0)) = level :: ds /\
    Forall (lt level) ds /\ steps_by_one level ds.
Proof.
  induction n as [|content|readable entries IH] using node_induction;
    intros siblings d level prefix g0; rewrite tree_lines;
    (destruct (parser_of _ d level g0) as [g|e]; [|now left]); cbn [fst];
    (destruct (should_ignore _ _ _); [now left|right]).
  1-2: exists []; repeat split; constructor.
  destruct readable; [|exists []; repeat split; constructor].
  exists (map depth (children_lines g (pathlib.of_str d) entries level prefix)).
  split; [reflexivity|].
  unfold children_lines. rewrite flat_map_concat_map, concat_map, map_map.
  match goal with
  | |- Forall _ (List.concat ?bs) /\ _ =>
      destruct (steps_by_one_blocks level bs) as [Hall Hsteps]; [|split; [exact Hall|now apply Hsteps]]
  end.
  apply Forall_forall. intros b Hb. apply in_map_iff in Hb as ([i [x m]] & <- & Hie).
  apply enumerate_from_in in Hie. apply surviving_in in Hie as [Hin _].
  rewrite Forall_forall in IH. cbn [fst snd] in *.
  replace (S level) with (level + 1) by lia. apply (IH (x, m) Hin).
Qed.

(** ** What is read of the file system *)

Lemma insert_map_in {A B K : Type} (le : K -> K -> bool) (kb : B -> K) (ka : A -> K)
  (f : A -> B) x l :
  kb (f x) = ka x -> (forall a, In a l -> kb (f a) = ka a) ->
  Py.insert le kb (f x) (map f l) = map f (Py.insert le ka x l).
Proof.
  intros Hx. induction l as [|y l IH]; intros Hl; simpl; [reflexivity|].
  rewrite Hx, (Hl y (or_introl eq_refl)).
  destruct (le (ka x) (ka y)); simpl; [reflexivity|].
  rewrite IH; [reflexivity|]. intros a Ha. apply Hl. now right.
Qed.

Lemma sorted_map_in {A B K : Type} (le : K -> K -> bool) (kb : B -> K) (ka : A -> K)
  (f : A -> B) l :
  (forall a, In a l -> kb (f a) = ka a) ->
  Py.sorted le kb (map f l) = map f (Py.sorted le ka l).
Proof.
  induction l as [|x l IH]; intros Hl; simpl; [reflexivity|].
  rewrite IH by (intros a Ha; apply Hl; now right).
  apply insert_map_in; [apply Hl; now left|].
  intros a Ha. apply Hl. right.
  eapply Permutation_in; [apply (sorted_perm le ka)|exact Ha].
Qed.

Lemma forall2_zip {A B : Type} (R : A -> B -> Prop) l l' :
  Forall2 R l l' ->
  exists zs, l = map fst zs /\ l' = map snd zs /\ Forall (fun z => R (fst z) (snd z)) zs.
Proof.
  induction 1 as [|a b l l' Hab _ (zs & -> & -> & Hzs)].
  - exists []. repeat split. constructor.
  - exists ((a, b) :: zs). repeat split. now constructor.
Qed.

Lemma same_shape_is_dir n n' : same_shape n n' -> fs.is_dir n = fs.is_dir n'.
Proof. now intros []. Qed.

(** X10: below the root, what a call prints depends on the file system
    only through the names and kinds of the entries and through which
    directories cannot be listed: the text of a file is never read, so
    a [.gitignore] inside a subdirectory has no effect.  On level 0 the
    same holds once the [.gitignore] of the root loads the same
    patterns. *)
Theorem file_contents_not_read n n' siblings d level prefix g0 :
  same_shape n n' ->
  parser_of n d level g0 = parser_of n' d level g0 ->
  tree n siblings d level prefix g0 = tree n' siblings d level prefix g0.
Proof.
  revert n' siblings d level prefix g0.
  induction n as [|content|readable entries IH] using node_induction;
    intros n' siblings d level prefix g0 Hshape Hparser;
    inversion Hshape as [|c c'|r es es' Hall]; subst;
    rewrite !tree_lines; try rewrite Hparser; try reflexivity.
  destruct (parser_of (Dir readable es') d level g0) as [g|e]; [|reflexivity].
  cbn [fs.is_dir]. destruct (should_ignore _ _ _); [reflexivity|].
  destruct readable; [|reflexivity].
  do 2 f_equal.
  destruct (forall2_zip _ _ _ Hall) as (zs & -> & -> & Hzs).
  rewrite Forall_forall in Hzs, IH.
  set (p := pathlib.of_str d).
  set (keep := fun z : (string * node) * (string * node) =>
                 negb (should_ignore g (pathlib.str (pathlib.child p (fst (fst z))))
                                     (fs.is_dir (snd (fst z))))).
  set (S := filter keep (Py.sorted key_le (fun z => entry_key (fst z)) zs)).
  assert (Hin : forall z, In z S -> In z zs).
  { intros z Hz. apply filter_In in Hz as [Hz _].
    eapply Permutation_in; [apply (sorted_perm key_le (fun z => entry_key (fst z)))|exact Hz]. }
  assert (Hfst : surviving g p (map fst zs) = map fst S).
  { unfold surviving, S.
    rewrite (sorted_map_in key_le entry_key (fun z => entry_key (fst z)) fst)
      by reflexivity.
    now rewrite filter_map. }
  assert (Hsnd : surviving g p (map snd zs) = map snd S).
  { unfold surviving, S.
    rewrite (sorted_map_in key_le entry_key (fun z => entry_key (fst z)) snd).
    - rewrite filter_map. f_equal. apply filter_ext_in. intros z Hz.
      assert (Hz' : In z zs)
        by (eapply Permutation_in;
            [apply (sorted_perm key_le (fun z => entry_key (fst z)))|exact Hz]).
      destruct (Hzs z Hz') as [Hname Hsh]. unfold keep.
      now rewrite Hname, (same_shape_is_dir _ _ Hsh).
    - intros z Hz. destruct (Hzs z Hz) as [Hname Hsh].
      unfold entry_key. now rewrite Hname, (same_shape_is_dir _ _ Hsh). }
  unfold children_lines. fold p. rewrite Hfst, Hsnd.
  unfold Py.enumerate. rewrite !enumerate_from_map, !flat_map_concat_map, !map_map, !length_map.
  f_equal. apply map_ext_in. intros [i z] Hiz. cbn [fst snd].
  apply enumerate_from_in in Hiz. cbn [snd] in Hiz. apply Hin in Hiz.
  destruct (Hzs z Hiz) as [Hname Hsh].
  rewrite <- Hname.
  rewrite (IH (fst z) (in_map fst zs z Hiz) (snd (snd z)) (map fst zs)) ;
    [|exact Hsh|now rewrite !parser_of_below].
  f_equal. apply tree_siblings.
  - destruct zs; [destruct Hiz|discriminate].
  - destruct zs; [destruct Hiz|discriminate].
Qed.

(** A [.gitignore] in a subdirectory that would hide everything. *)
Lemma file_contents_not_read_witness :
  tree (Dir true [("src", Dir true [(".gitignore", File (Some "*")); ("a.py", File (Some "x"))])])
       [] "proj" 0 "" GitignoreParser_init
  = tree (Dir true [("src", Dir true [(".gitignore", File None); ("a.py", File (Some ""))])])
         [] "proj" 0 "" GitignoreParser_init.
Proof.
  apply (file_contents_not_read
           (Dir true [("src", Dir true [(".gitignore", File (Some "*"));
                                        ("a.py", File (Some "x"))])])
           (Dir true [("src", Dir true [(".gitignore", File None);
                                        ("a.py", File (Some ""))])])
           [] "proj" 0 "" GitignoreParser_init);
    [|reflexivity].
  repeat (constructor; cbn [fst snd]; try split; try reflexivity).
Defined.

(** ** A single wildcard directory between literal parts *)

Lemma plain_head c r : plain (String c r) = true -> Ascii.eqb c "*" = false /\ plain r = true.
Proof.
  cbn [plain]. intros H. apply andb_true_iff in H as [Hc Hr].
  unfold special in Hc. rewrite negb_true_iff, !orb_false_iff in Hc. tauto.
Qed.

Lemma startswith_star2_plain c r :
  Ascii.eqb c "*" = false -> String.prefix "**" (String c r) = false.
Proof.
  intros Hc. change (Py.startswith "**" (String c r) = false).
  now rewrite startswith_cons, Hc.
Qed.

Lemma split_go_plain s : forall cur,
  plain s = true -> Py.split_go "**" s 0 cur = [cur ++ s].
Proof.
  induction s as [|c r IH]; intros cur H.
  - simpl. now rewrite append_nil_r.
  - apply plain_head in H as [Hc Hr].
    cbn [Py.split_go]. rewrite (startswith_star2_plain c r Hc), IH by assumption.
    now rewrite append_assoc.
Qed.

Lemma split_single_double_star a b :
  plain a = true -> plain b = true ->
  Py.split "**" (a ++ "**" ++ b) = [a; b].
Proof.
  intros Ha Hb. unfold Py.split.
  assert (H : forall cur, Py.split_go "**" (a ++ "**" ++ b) 0 cur = [cur ++ a; b]).
  { induction a as [|c r IH]; intros cur.
    - change ("" ++ "**" ++ b) with (String "*" (String "*" b)).
      cbn [Py.split_go]. change (String.prefix "**" (String "*" (String "*" b)))
        with (Py.startswith "**" (String "*" (String "*" b))).
      rewrite !startswith_cons, startswith_nil. simpl.
      rewrite append_nil_r. f_equal.
      destruct b as [|d b']; [reflexivity|].
      now rewrite (split_go_plain (String d b') "" Hb).
    - apply plain_head in Ha as [Hc Hr].
      change (String c r ++ "**" ++ b) with (String c (r ++ "**" ++ b)).
      cbn [Py.split_go]. rewrite (startswith_star2_plain c _ Hc), IH by assumption.
      now rewrite append_assoc. }
  apply H.
Qed.

Lemma contains_double_star a b : Py.contains "**" (a ++ "**" ++ b) = true.
Proof.
  induction a as [|c r IH].
  - change ("" ++ "**" ++ b) with (String "*" (String "*" b)).
    cbn [Py.contains]. change (String.prefix "**" (String "*" (String "*" b)))
      with (Py.startswith "**" (String "*" (String "*" b))).
    now rewrite !startswith_cons, startswith_nil.
  - change (String c r ++ "**" ++ b) with (String c (r ++ "**" ++ b)).
    cbn [Py.contains]. rewrite IH. apply orb_true_r.
Qed.

Lemma rstrip_no_trailing c s :
  Py.endswith (String c "") s = false -> Py.rstrip_char c s = s.
Proof.
  unfold Py.rstrip_char. induction s as [|a r IH]; [reflexivity|].
  cbn [Py.endswith]. intros H. apply orb_false_iff in H as [Ha Hr].
  cbn [Py.rstrip_by]. rewrite IH by assumption.
  destruct r as [|b r']; [|reflexivity].
  cbn [Py.is_empty andb]. unfold Py.is_char.
  destruct (Ascii.eqb a c) eqn:E; [|reflexivity].
  simpl in Ha. rewrite E in Ha. discriminate.
Qed.

Lemma translate_go_plain_app a : forall rest flag,
  plain a = true ->
  fnmatch.translate_go (a ++ rest) 0 flag
  = (map fnmatch.Lit (list_ascii_of_string a)
     ++ fnmatch.translate_go rest 0 (match a with EmptyString => flag | _ => false end))%list.
Proof.
  induction a as [|c r IH]; intros rest flag H; [reflexivity|].
  pose proof H as H'. cbn [plain] in H'. apply andb_true_iff in H' as [Hc Hr].
  unfold special in Hc. rewrite negb_true_iff, !orb_false_iff in Hc.
  destruct Hc as [[H1 H2] H3].
  change (String c r ++ rest) with (String c (r ++ rest)).
  cbn [fnmatch.translate_go list_ascii_of_string map app]. rewrite H1, H2, H3.
  rewrite IH by assumption. now destruct r.
Qed.

Lemma translate_single_double_star a b :
  plain a = true -> plain b = true ->
  fnmatch.translate (a ++ "**" ++ b)
  = (map fnmatch.Lit (list_ascii_of_string a)
     ++ fnmatch.Star :: map fnmatch.Lit (list_ascii_of_string b))%list.
Proof.
  intros Ha Hb. unfold fnmatch.translate.
  rewrite translate_go_plain_app by assumption. f_equal.
  replace (match a with EmptyString => false | String _ _ => false end) with false
    by now destruct a.
  change ("**" ++ b) with (String "*" (String "*" b)).
  cbn [fnmatch.translate_go]. simpl Ascii.eqb. cbv iota.
  now rewrite translate_go_plain.
Qed.

Lemma endswith_tail p c r : Py.endswith p r = true -> Py.endswith p (String c r) = true.
Proof. intros H. cbn [Py.endswith]. rewrite H. apply orb_true_r. Qed.

Lemma matches_lits_star_lits a b : forall s,
  fnmatch.matches (map fnmatch.Lit a ++ fnmatch.Star :: map fnmatch.Lit b)%list s = true ->
  Py.startswith (string_of_list_ascii a) s = true /\
  Py.endswith (string_of_list_ascii b) s = true.
Proof.
  induction a as [|d a IH]; intros s.
  - cbn [map app string_of_list_ascii]. rewrite matches_star_lits, startswith_nil. auto.
  - cbn [map app string_of_list_ascii fnmatch.matches].
    destruct s as [|c r]; [discriminate|].
    intros H. apply andb_true_iff in H as [Hc Hr].
    apply IH in Hr as [Hs He].
    rewrite startswith_cons, Hc, Hs. split; [reflexivity|now apply endswith_tail].
Qed.

(** X11: for a pattern [a**b] whose parts [a] and [b] hold no wildcard
    character, and which does not end with a slash, a path is ignored
    exactly when its normalized form starts with [a] and ends with [b]
    (the two may overlap), or its base name matches the pattern as a
    glob. *)
Theorem single_double_star_pattern a b defaults path is_dir :
  plain a = true -> plain b = true ->
  Py.endswith "/" (a ++ "**" ++ b) = false ->
  should_ignore (mkParser [a ++ "**" ++ b] defaults) path is_dir
  = (Py.startswith a (os_path.normpath path) && Py.endswith b (os_path.normpath path))
    || fnmatch.fnmatch (os_path.basename (os_path.normpath path)) (a ++ "**" ++ b).
Proof.
  intros Ha Hb He. unfold should_ignore. cbn [patterns should_ignore_loop].
  rewrite He, rstrip_no_trailing by assumption. cbn [andb].
  unfold double_star.
  rewrite contains_double_star, split_single_double_star by assumption.
  set (p := os_path.normpath path).
  destruct (Py.startswith a p && Py.endswith b p) eqn:Hrule.
  - cbn [orb]. now destruct (_ || _).
  - destruct (fnmatch.fnmatch p (a ++ "**" ++ b)) eqn:Hfull.
    + unfold fnmatch.fnmatch in Hfull.
      rewrite translate_single_double_star in Hfull by assumption.
      apply matches_lits_star_lits in Hfull as [Hs Hend].
      rewrite !string_of_list_ascii_of_string in *. now rewrite Hs, Hend in Hrule.
    + cbn [orb]. now destruct (fnmatch.fnmatch (os_path.basename p) _).
Qed.

(** The two parts overlap in the path: the glob does not match it, the
    rule does. *)
Lemma single_double_star_pattern_witness :
  should_ignore (mkParser ["logs/**/logs"] []) "logs/logs" true = true.
Proof.
  exact (eq_trans (single_double_star_pattern "logs/" "/logs" [] "logs/logs" true
                     eq_refl eq_refl eq_refl)
                  eq_refl).
Defined.

(* ================================================================= *)
(** * Two runs over the same files *)





Lemma find_not_in x entries :
  ~ In x (map fst entries) -> fs.find x entries = Absent.
Proof.
  induction entries as [|[y m] l IH]; [reflexivity|].
  cbn [map fst fs.find In]. intros H.
  destruct (String.eqb_spec x y) as [->|_]; [exfalso; apply H; now left|].
  apply IH. intros Hin. apply H. now right.
Qed.








